(** * The prediction-market aggregator of [prediction_aggregator.py]

    A shallow embedding of the aggregator script: the two source adapters
    ([fetch_manifold], [fetch_polymarket]), the timestamp normalizer
    ([_to_iso]), the aggregator ([aggregate_markets]) and the command-line
    entry point ([main]) that emits the snapshot.

    Python values decoded from JSON are the inductive type [json]; Python
    [float]s are the kernel's binary64 floats; exceptions are values of an
    error monad threaded together with the observable state of a run (the
    error channel, the standard output, the requests sent and the files
    written). *)

From Stdlib Require Import ZArith List String Ascii Bool Lia Floats.
From Stdlib Require Import DecimalString Permutation Sorted.
Import ListNotations.
Local Open Scope string_scope.
Local Open Scope Z_scope.
Local Set Warnings "-register-all".

(** ** Exceptions and results *)

(** The exception classes the script can meet; all of them derive from
    [Exception], which is what its two [except] clauses catch.  [OSError]
    stands for itself and for its subclasses raised by [urllib] ([URLError],
    [HTTPError], timeouts); [DecodeError] for [UnicodeDecodeError] and
    [json.JSONDecodeError]. *)
Inductive exn_kind : Type :=
| ValueError | TypeError | AttributeError | KeyError | IndexError
| OverflowError | OSError | DecodeError | UnicodeEncodeError.

(** An exception with the text [str(exc)] gives. *)
Record exn : Type := Exn { exn_class : exn_kind; exn_text : string }.

Inductive result (A : Type) : Type :=
| Ok (a : A)
| Raise (e : exn).
Arguments Ok {A} a.
Arguments Raise {A} e.

Definition rbind {A B} (r : result A) (k : A -> result B) : result B :=
  match r with
  | Ok a => k a
  | Raise e => Raise e
  end.

Declare Scope result_scope.
Delimit Scope result_scope with result.
Notation "x <- r ;; k" := (rbind r (fun x => k))
  (at level 61, r at next level, right associativity) : result_scope.

(** A [for] loop that appends one value per item: the first exception ends
    it. *)
Fixpoint rmap {A B} (f : A -> result B) (l : list A) : result (list B) :=
  match l with
  | [] => Ok []
  | a :: l' =>
      rbind (f a) (fun b => rbind (rmap f l') (fun bs => Ok (b :: bs)))
  end.

(** ** Decoded JSON *)

(** What [json.loads] returns: [None], [bool], [int], [float], [str], [list]
    and [dict].  A [dict] is the list of its items in insertion order, each
    key once. *)
Inductive json : Type :=
| JNull
| JBool (b : bool)
| JInt (z : Z)
| JFloat (f : float)
| JStr (s : string)
| JArr (l : list json)
| JObj (kv : list (string * json)).

Definition py_type_name (v : json) : string :=
  match v with
  | JNull => "NoneType"
  | JBool _ => "bool"
  | JInt _ => "int"
  | JFloat _ => "float"
  | JStr _ => "str"
  | JArr _ => "list"
  | JObj _ => "dict"
  end.

(** Truth value of a Python object, as [or], [if] and [not] test it. *)
Definition truthy (v : json) : bool :=
  match v with
  | JNull => false
  | JBool b => b
  | JInt z => negb (z =? 0)
  | JFloat f => negb (PrimFloat.eqb f 0%float)
  | JStr s => negb (String.eqb s "")
  | JArr l => match l with [] => false | _ => true end
  | JObj kv => match kv with [] => false | _ => true end
  end.

(** [a or b] *)
Definition py_or (a b : json) : json := if truthy a then a else b.

Fixpoint lookup (k : string) (kv : list (string * json)) : option json :=
  match kv with
  | [] => None
  | (k', v) :: kv' => if String.eqb k k' then Some v else lookup k kv'
  end.

(** [d.get(k)] and [d.get(k, default)] on a dict. *)
Definition get (kv : list (string * json)) (k : string) : json :=
  match lookup k kv with Some v => v | None => JNull end.

Definition get_default (kv : list (string * json)) (k : string) (d : json) : json :=
  match lookup k kv with Some v => v | None => d end.

(** [v.get]: only a dict has the method. *)
Definition as_dict (v : json) : result (list (string * json)) :=
  match v with
  | JObj kv => Ok kv
  | _ => Raise (Exn AttributeError
                  ("'" ++ py_type_name v ++ "' object has no attribute 'get'"))
  end.

(** The bytes that start a UTF-8 encoded character. *)
Definition utf8_start (c : ascii) : bool :=
  let n := N_of_ascii c in negb ((128 <=? n)%N && (n <? 192)%N).

Definition at_char_start (s : string) : bool :=
  match s with
  | EmptyString => true
  | String c _ => utf8_start c
  end.

(** The characters of a [str], each as a one-character [str]. *)
Fixpoint chars (s : string) : list string :=
  match s with
  | EmptyString => []
  | String c s' =>
      if at_char_start s' then String c EmptyString :: chars s'
      else
        match chars s' with
        | x :: xs => String c x :: xs
        | [] => [String c EmptyString]
        end
  end.

(** The items a [for] loop (or [len], for the three containers) sees. *)
Definition py_iter (v : json) : result (list json) :=
  match v with
  | JArr l => Ok l
  | JStr s => Ok (map JStr (chars s))
  | JObj kv => Ok (map (fun p => JStr (fst p)) kv)
  | _ => Raise (Exn TypeError
                  ("'" ++ py_type_name v ++ "' object is not iterable"))
  end.

(** ** Floats *)

(** [float(n)] for an [int]: rounded to nearest, ties to even;
    [OverflowError] when the result would not be finite. *)
Definition float_of_Z (z : Z) : float :=
  SF2Prim (binary_normalize prec emax z 0 false).

Definition float_of_int (z : Z) : result float :=
  let f := float_of_Z z in
  if PrimFloat.is_infinity f
  then Raise (Exn OverflowError "int too large to convert to float")
  else Ok f.

(** ** Calendar time *)

(** A [datetime]: the wall-clock reading as a count of seconds from
    1970-01-01T00:00:00 on that clock, the microseconds, and the UTC offset
    in seconds of an aware value ([None] for a naive one). *)
Record datetime : Type := Datetime {
  dt_wall : Z;
  dt_micro : Z;
  dt_offset : option Z
}.

(** Wall-clock seconds of 0001-01-01T00:00:00 and 9999-12-31T23:59:59, the
    range of [datetime]. *)
Definition MIN_WALL : Z := -62135596800.
Definition MAX_WALL : Z := 253402300799.

Definition in_datetime_range (s : Z) : bool :=
  (MIN_WALL <=? s) && (s <=? MAX_WALL).

(** [_ord2ymd] of the [datetime] module: proleptic Gregorian ordinal (day 1
    is 0001-01-01) to year, month, day. *)
Definition DI400Y : Z := 146097.
Definition DI100Y : Z := 36524.
Definition DI4Y : Z := 1461.

Definition DAYS_IN_MONTH (month : Z) : Z :=
  nth (Z.to_nat month) [-1; 31; 28; 31; 30; 31; 30; 31; 31; 30; 31; 30; 31] 0.

Definition DAYS_BEFORE_MONTH (month : Z) : Z :=
  nth (Z.to_nat month) [-1; 0; 31; 59; 90; 120; 151; 181; 212; 243; 273; 304; 334] 0.

Definition b2z (b : bool) : Z := if b then 1 else 0.

Definition ord2ymd (n : Z) : Z * Z * Z :=
  let n := n - 1 in
  let n400 := n / DI400Y in
  let n := n mod DI400Y in
  let year := n400 * 400 + 1 in
  let n100 := n / DI100Y in
  let n := n mod DI100Y in
  let n4 := n / DI4Y in
  let n := n mod DI4Y in
  let n1 := n / 365 in
  let n := n mod 365 in
  let year := year + n100 * 100 + n4 * 4 + n1 in
  if (n1 =? 4) || (n100 =? 4) then (year - 1, 12, 31)
  else
    let leapyear := (n1 =? 3) && (negb (n4 =? 24) || (n100 =? 3)) in
    let month := Z.shiftr (n + 50) 5 in
    let preceding := DAYS_BEFORE_MONTH month + b2z ((2 <? month) && leapyear) in
    if n <? preceding then
      let month := month - 1 in
      let preceding :=
        preceding - (DAYS_IN_MONTH month + b2z ((month =? 2) && leapyear)) in
      (year, month, n - preceding + 1)
    else (year, month, n - preceding + 1).

(** Ordinal of 1970-01-01. *)
Definition EPOCH_ORDINAL : Z := 719163.

(** The broken-down fields of a wall-clock reading. *)
Record tm : Type := Tm {
  tm_year : Z; tm_mon : Z; tm_mday : Z;
  tm_hour : Z; tm_min : Z; tm_sec : Z
}.

Definition gmtime (s : Z) : tm :=
  let days := s / 86400 in
  let rem := s mod 86400 in
  let '(y, m, d) := ord2ymd (days + EPOCH_ORDINAL) in
  Tm y m d (rem / 3600) ((rem mod 3600) / 60) (rem mod 60).

(** [str(n)] for an [int]. *)
Definition str_of_int (n : Z) : string := NilZero.string_of_int (Z.to_int n).

(** Two decimal digits, zero padded, as [%m %d %H %M %S] print them, and the
    four digits of a year from 1000 on. *)
Definition digit (d : Z) : ascii := ascii_of_N (Z.to_N (48 + d)).

Definition pad2 (n : Z) : string :=
  String (digit (n / 10)) (String (digit (n mod 10)) EmptyString).

Definition pad4 (n : Z) : string :=
  String (digit (n / 1000))
    (String (digit ((n / 100) mod 10)) (pad2 (n mod 100))).

(** [%Y]: [strftime] hands the year to the C library, which prints it in
    decimal without padding, so with fewer than four digits below the year
    1000 (glibc; CPython pads those years itself only from 3.13 on).  From
    the year 1000 on these are the four digits on every platform. *)
Definition year_text (y : Z) : string :=
  if y <? 1000 then str_of_int y else pad4 y.

(** [ISO8601 = "%Y-%m-%dT%H:%M:%SZ"], and [dt.strftime(ISO8601)]. *)
Definition strftime_ISO8601 (dt : datetime) : string :=
  let t := gmtime (dt_wall dt) in
  year_text (tm_year t) ++ "-" ++ pad2 (tm_mon t) ++ "-" ++ pad2 (tm_mday t) ++ "T"
  ++ pad2 (tm_hour t) ++ ":" ++ pad2 (tm_min t) ++ ":" ++ pad2 (tm_sec t) ++ "Z".

(** The integral part of a finite float, towards zero ([modf]). *)
Definition trunc_float (f : float) : Z :=
  match Prim2SF f with
  | S754_finite s m e =>
      let a := if 0 <=? e then Zpos m * 2 ^ e else Zpos m / 2 ^ (- e) in
      if s then - a else a
  | _ => 0
  end.

(** A finite float rounded to the nearest integer, ties to even. *)
Definition round_half_even (f : float) : Z :=
  match Prim2SF f with
  | S754_finite s m e =>
      let a :=
        if 0 <=? e then Zpos m * 2 ^ e
        else
          let d := 2 ^ (- e) in
          let q := Zpos m / d in
          let r := Zpos m mod d in
          if 2 * r <? d then q
          else if d <? 2 * r then q + 1
          else if Z.even q then q else q + 1 in
      if s then - a else a
  | _ => 0
  end.

(** [datetime.fromtimestamp(t, tz=timezone.utc)]: the float is split into
    whole seconds and microseconds rounded half to even; NaN, a value
    outside [time_t] and a year outside 1..9999 raise. *)
Definition fromtimestamp_utc (t : float) : result datetime :=
  if PrimFloat.is_nan t
  then Raise (Exn ValueError "Invalid value NaN (not a number)")
  else if PrimFloat.is_infinity t
  then Raise (Exn OverflowError "timestamp out of range for platform time_t")
  else
    let intpart := trunc_float t in
    let floatpart := PrimFloat.sub t (float_of_Z intpart) in
    let us := round_half_even (PrimFloat.mul floatpart 1000000%float) in
    let '(sec, us) :=
      if 1000000 <=? us then (intpart + 1, us - 1000000)
      else if us <? 0 then (intpart - 1, us + 1000000)
      else (intpart, us) in
    if negb ((- 2 ^ 63 <=? sec) && (sec <? 2 ^ 63))
    then Raise (Exn OverflowError "timestamp out of range for platform time_t")
    else if negb (in_datetime_range sec)
    then Raise (Exn ValueError "year is out of range")
    else Ok (Datetime sec us (Some 0)).

(** ** The canonical entity *)

(** The [Market] dataclass.  Its fields are annotated but not checked, so
    [id], [question] and the probability hold whatever the adapter put
    there; the two volumes are [float] or [None]; the two timestamps come
    from [_to_iso]. *)
Record Market : Type := mkMarket {
  source : string;
  id : json;
  question : json;
  url : string;
  outcome_type : string;
  probability : json;
  implied_odds : json;
  volume_24h : option float;
  liquidity : option float;
  created_at : option string;
  close_time : option string
}.

(** The payload [main] serializes. *)
Record snapshot : Type := Snapshot {
  generated_at : string;
  snap_sources : list string;
  count : Z;
  markets : list Market
}.

(** What happens when [Path.write_text] is asked to write: nothing goes
    wrong, the parent directories cannot be made, the file cannot be opened,
    or the write stops with an error after some bytes. *)
Inductive write_fault : Type :=
| NoFault
| MkdirFails (e : exn)
| OpenFails (e : exn)
| WriteFails (written : nat) (e : exn).

(** ** The host: library functions and the machine *)

(** The parts of the Python library and of the machine that the script
    calls and that are not modelled here: they are taken as they come.
    - [py_str v] is [str(v)] and [py_lower s] is [s.lower()];
    - [py_float_of_str s] is [float(s)] for a [str];
    - [fromisoformat s] is [datetime.fromisoformat(s)];
    - [local_utcoffset s] is the UTC offset, in seconds, that the system time
      zone gives to the naive wall-clock reading [s] (it can raise near the
      ends of the range);
    - [urlopen_json n u] is what the [n]-th request of the run, sent to the
      URL [u], yields once read, decoded and given to [json.loads];
    - [utcnow] is the clock, in seconds since the epoch;
    - [json_dumps p] is [json.dumps(p, ensure_ascii=False, indent=2)];
    - [disk path] is how a write to [path] ends;
    - [console s] is how [sys.stdout.write(s)] ends: [None] when the text
      is written, or the number of characters that got out and the
      exception: a [UnicodeEncodeError] of the encoding of the stream,
      before anything is written, or an [OSError] of a closed pipe or a
      full device;
    - [sort_with_nan l] is the list that
      [l.sort(key=lambda m: (m.volume_24h or 0.0), reverse=True)] leaves
      when one of the keys is NaN.  [<] does not order such keys, and the
      outcome is that of the comparisons the merge sort of the interpreter
      happens to make, which differ from one version to another and with
      the length of the list; [sort_with_nan_permutes]: whatever they are,
      the list holds the same items afterwards. *)
Class Host : Type := {
  py_str : json -> string;
  py_lower : string -> string;
  py_float_of_str : string -> result float;
  fromisoformat : string -> result datetime;
  local_utcoffset : Z -> result Z;
  urlopen_json : nat -> string -> result json;
  utcnow : Z;
  json_dumps : snapshot -> result string;
  disk : string -> write_fault;
  console : string -> option (nat * exn);
  sort_with_nan : list Market -> list Market;
  sort_with_nan_permutes : forall l : list Market, Permutation (sort_with_nan l) l
}.

(** What a run leaves behind: the writes to the error channel and to the
    standard output, the URLs requested, and the files with their
    contents. *)
Record world : Type := World {
  stderr : list string;
  stdout : list string;
  requests : list string;
  files : list (string * string)
}.

(** Computations that read and change the world and may raise. *)
Definition io (A : Type) : Type := world -> result A * world.

Definition ret {A} (a : A) : io A := fun w => (Ok a, w).

Definition throw {A} (e : exn) : io A := fun w => (Raise e, w).

Definition lift {A} (r : result A) : io A := fun w => (r, w).

Definition bind {A B} (m : io A) (k : A -> io B) : io B :=
  fun w =>
    match m w with
    | (Ok a, w') => k a w'
    | (Raise e, w') => (Raise e, w')
    end.

(** [try: m except Exception as exc: h exc] *)
Definition try_except {A} (m : io A) (h : exn -> io A) : io A :=
  fun w =>
    match m w with
    | (Ok a, w') => (Ok a, w')
    | (Raise e, w') => h e w'
    end.

(** The same for code without effects. *)
Definition rtry {A} (r : result A) (h : exn -> result A) : result A :=
  match r with
  | Ok a => Ok a
  | Raise e => h e
  end.

Declare Scope io_scope.
Delimit Scope io_scope with io.
Notation "x <- m ;; k" := (bind m (fun x => k))
  (at level 61, m at next level, right associativity) : io_scope.
Notation "m ;; k" := (bind m (fun _ => k))
  (at level 61, right associativity) : io_scope.

Definition nl : string := String (ascii_of_nat 10) EmptyString.

Definition write_stderr (s : string) : io unit :=
  fun w => (Ok tt, World (stderr w ++ [s])%list (stdout w) (requests w) (files w)).

(** [sys.stdout.write(s)] *)
Definition write_stdout `{Host} (s : string) : io unit :=
  fun w =>
    match console s with
    | None =>
        (Ok tt, World (stderr w) (stdout w ++ [s])%list (requests w) (files w))
    | Some (O, e) => (Raise e, w)
    | Some (n, e) =>
        (Raise e,
         World (stderr w) (stdout w ++ [substring 0 n s])%list (requests w)
           (files w))
    end.

(** [urlopen(Request(url, ...), timeout=...)], [resp.read().decode("utf-8")]
    and [json.loads]: one request is sent, whatever comes of it. *)
Definition urlopen `{Host} (u : string) : io json :=
  fun w =>
    (urlopen_json (List.length (requests w)) u,
     World (stderr w) (stdout w) (requests w ++ [u])%list (files w)).

Definition set_file (path text : string) (fs : list (string * string))
  : list (string * string) :=
  (path, text) :: filter (fun p => negb (String.eqb (fst p) path)) fs.

Fixpoint read_file (path : string) (fs : list (string * string)) : option string :=
  match fs with
  | [] => None
  | (p, t) :: fs' => if String.eqb p path then Some t else read_file path fs'
  end.

(** [out_path.parent.mkdir(parents=True, exist_ok=True)] followed by
    [out_path.write_text(text, encoding="utf-8")]: the file is opened for
    writing, which empties it, and the text is then encoded and written. *)
Definition write_text `{Host} (path text : string) : io unit :=
  fun w =>
    match disk path with
    | NoFault =>
        (Ok tt, World (stderr w) (stdout w) (requests w) (set_file path text (files w)))
    | MkdirFails e => (Raise e, w)
    | OpenFails e => (Raise e, w)
    | WriteFails n e =>
        (Raise e,
         World (stderr w) (stdout w) (requests w)
           (set_file path (substring 0 n text) (files w)))
    end.

(** ** Conversions *)

(** [float(v)] *)
Definition py_float `{Host} (v : json) : result float :=
  match v with
  | JFloat f => Ok f
  | JInt z => float_of_int z
  | JBool b => Ok (if b then 1%float else 0%float)
  | JStr s => py_float_of_str s
  | _ => Raise (Exn TypeError
                  ("float() argument must be a string or a real number, not '"
                   ++ py_type_name v ++ "'"))
  end.

(** [float(v) if v is not None else None] *)
Definition optional_float `{Host} (v : json) : result (option float) :=
  match v with
  | JNull => Ok None
  | _ => rbind (py_float v) (fun f => Ok (Some f))
  end.

(** [s.replace("Z", "+00:00")] *)
Fixpoint replace_Z (s : string) : string :=
  match s with
  | EmptyString => EmptyString
  | String c s' =>
      if Ascii.eqb c "Z"%char then "+00:00" ++ replace_Z s'
      else String c (replace_Z s')
  end.

(** ** Helpers *)

(** [dt.astimezone(timezone.utc)]: the offset of an aware value, or the one
    the system time zone gives a naive value, is subtracted; the result must
    be a [datetime]. *)
Definition astimezone_utc `{Host} (dt : datetime) : result datetime :=
  (off <- match dt_offset dt with
          | Some o => Ok o
          | None => local_utcoffset (dt_wall dt)
          end ;;
   let s := dt_wall dt - off in
   if in_datetime_range s then Ok (Datetime s (dt_micro dt) (Some 0))
   else Raise (Exn OverflowError "date value out of range"))%result.

(** [ts_ms_or_iso in (None, "")] *)
Definition is_none_or_empty (v : json) : bool :=
  match v with
  | JNull => true
  | JStr s => String.eqb s ""
  | _ => false
  end.

Definition _to_iso `{Host} (ts_ms_or_iso : json) : result (option string) :=
  if is_none_or_empty ts_ms_or_iso then Ok None
  else
    match ts_ms_or_iso with
    | JStr s =>
        rtry
          (dt <- fromisoformat (replace_Z s) ;;
           u <- astimezone_utc dt ;;
           Ok (Some (strftime_ISO8601 u)))%result
          (fun _ => Ok None)
    | _ =>
        rtry
          (ts_ms <- py_float ts_ms_or_iso ;;
           dt <- fromtimestamp_utc (PrimFloat.div ts_ms 1000%float) ;;
           Ok (Some (strftime_ISO8601 dt)))%result
          (fun _ => Ok None)
    end.

(** ** Manifold Markets *)

(** [v == s] for a [str] literal [s]. *)
Definition eq_str (v : json) (s : string) : bool :=
  match v with
  | JStr t => String.eqb t s
  | _ => false
  end.

(** [v.lower()]: only a [str] has the method. *)
Definition lower `{Host} (v : json) : result string :=
  match v with
  | JStr s => Ok (py_lower s)
  | _ => Raise (Exn AttributeError
                  ("'" ++ py_type_name v ++ "' object has no attribute 'lower'"))
  end.

(** The body of the loop of [fetch_manifold]: the [Market] built from one
    record. *)
Definition manifold_market `{Host} (m : json) : result Market :=
  (d <- as_dict m ;;
   let prob :=
     if eq_str (get d "outcomeType") "BINARY" then get d "probability"
     else JNull in
   outcome <- lower (py_or (get d "outcomeType") (JStr "")) ;;
   vol <- optional_float (get d "volume24Hours") ;;
   liq <- optional_float (get d "elasticity") ;;
   created <- _to_iso (get d "createdTime") ;;
   closing <- _to_iso (get d "closeTime") ;;
   Ok {| source := "manifold";
         id := get_default d "id" (JStr "");
         question := get_default d "question" (JStr "");
         url := "https://manifold.markets/"
                ++ py_str (get_default d "creatorUsername" (JStr "")) ++ "/"
                ++ py_str (get_default d "slug" (get_default d "id" (JStr "")));
         outcome_type := outcome;
         probability := prob;
         implied_odds := prob;
         volume_24h := vol;
         liquidity := liq;
         created_at := created;
         close_time := closing |})%result.

Definition manifold_url (limit : Z) : string :=
  "https://api.manifold.markets/v0/markets" ++ "?" ++ "limit=" ++ str_of_int limit.

Definition fetch_manifold `{Host} (limit : Z) : io (list Market) :=
  (data <- urlopen (manifold_url limit) ;;
   lift (records <- py_iter data ;; rmap manifold_market records)%result)%io.

(** ** Polymarket *)

(** [float(m.get("volume", 0) or 0.0)] *)
Definition market_volume `{Host} (m : json) : result float :=
  (d <- as_dict m ;;
   py_float (py_or (get_default d "volume" (JInt 0)) (JFloat 0%float)))%result.

(** The inner loop of [fetch_polymarket], from the values [best_market] and
    [best_volume] have when it reaches the markets [ms]. *)
Fixpoint choose_best `{Host} (ms : list json) (best_market : json)
  (best_volume : float) : result json :=
  match ms with
  | [] => Ok best_market
  | m :: ms' =>
      (vol <- market_volume m ;;
       if PrimFloat.ltb best_volume vol then choose_best ms' m vol
       else choose_best ms' best_market best_volume)%result
  end.

Definition dquote : string := String (ascii_of_nat 34) EmptyString.

(** ["https://polymarket.com/event/" + v]: only a [str] can be appended. *)
Definition str_concat (s : string) (v : json) : result string :=
  match v with
  | JStr t => Ok (s ++ t)
  | _ => Raise (Exn TypeError
                  ("can only concatenate str (not " ++ dquote ++ py_type_name v
                   ++ dquote ++ ") to str"))
  end.

(** [prices[0]], for a [prices] that is not empty. *)
Definition first_item (prices : json) : result json :=
  match prices with
  | JArr (x :: _) => Ok x
  | JArr [] => Raise (Exn IndexError "list index out of range")
  | JStr s =>
      match chars s with
      | c :: _ => Ok (JStr c)
      | [] => Raise (Exn IndexError "string index out of range")
      end
  | JObj _ => Raise (Exn KeyError "0")
  | _ => Raise (Exn TypeError
                  ("'" ++ py_type_name prices ++ "' object is not subscriptable"))
  end.

(** [len(v)] *)
Definition py_len (v : json) : result Z :=
  match v with
  | JArr _ | JStr _ | JObj _ =>
      rbind (py_iter v) (fun l => Ok (Z.of_nat (List.length l)))
  | _ => Raise (Exn TypeError
                  ("object of type '" ++ py_type_name v ++ "' has no len()"))
  end.

(** The second half of the body of the outer loop of [fetch_polymarket]:
    the [Market] of an event once [best_market] is chosen. *)
Definition chosen_market `{Host} (d : list (string * json)) (question : json)
  (base_url : string) (best_market : json) : result Market :=
  (b <- as_dict best_market ;;
   let prices := py_or (get b "prices") (JArr []) in
   prob_yes <- (if truthy prices
                then p <- first_item prices ;; f <- py_float p ;; Ok (JFloat f)
                else Ok JNull) ;;
   n <- py_len prices ;;
   vol <- optional_float (get b "volume") ;;
   liq <- optional_float (get b "liquidity") ;;
   created <- _to_iso (py_or (get d "createdAt") (get d "created_at")) ;;
   closing <- _to_iso (py_or (get d "endDate") (get d "end_date")) ;;
   Ok {| source := "polymarket";
         id := JStr (py_str (get b "id"));
         question := question;
         url := base_url;
         outcome_type := if n =? 2 then "binary" else "multi";
         probability := prob_yes;
         implied_odds := prob_yes;
         volume_24h := vol;
         liquidity := liq;
         created_at := created;
         close_time := closing |})%result.

(** The body of the outer loop of [fetch_polymarket]: the [Market] of one
    event, or nothing when the loop goes on to the next event. *)
Definition polymarket_event `{Host} (e : json) : result (option Market) :=
  (d <- as_dict e ;;
   let question := py_or (get d "title") (py_or (get d "question") (JStr "")) in
   let url_slug := py_or (get d "slug") (py_or (get d "id") (JStr "")) in
   base_url <- str_concat "https://polymarket.com/event/" url_slug ;;
   ms <- py_iter (py_or (get d "markets") (JArr [])) ;;
   best_market <- choose_best ms JNull (-1)%float ;;
   if negb (truthy best_market) then Ok None
   else
     m <- chosen_market d question base_url best_market ;;
     Ok (Some m))%result.

(** The values a loop appended, in order. *)
Fixpoint appended {A} (l : list (option A)) : list A :=
  match l with
  | [] => []
  | Some a :: l' => a :: appended l'
  | None :: l' => appended l'
  end.

Definition polymarket_url (limit : Z) : string :=
  "https://gamma-api.polymarket.com/events" ++ "?"
  ++ "includeClosedMarkets=false" ++ "&" ++ "limit=" ++ str_of_int limit.

(** [data if isinstance(data, list) else data.get("events") or []] *)
Definition events_of (data : json) : result json :=
  match data with
  | JArr _ => Ok data
  | _ => rbind (as_dict data) (fun d => Ok (py_or (get d "events") (JArr [])))
  end.

Definition fetch_polymarket `{Host} (limit : Z) : io (list Market) :=
  (data <- urlopen (polymarket_url limit) ;;
   lift (events <- events_of data ;;
         es <- py_iter events ;;
         ms <- rmap polymarket_event es ;;
         Ok (appended ms))%result)%io.

(** ** The aggregator *)

(** [x or 0.0] for a [float] or [None]. *)
Definition or_zero (x : option float) : float :=
  match x with
  | None => 0%float
  | Some f => if PrimFloat.eqb f 0%float then 0%float else f
  end.

Section ListSort.
Context {A K : Type} (lt : K -> K -> bool) (key : A -> K).

(** [x], which stood before the items of the sorted [l], goes before the
    first item whose key is not below its own. *)
Fixpoint insert_sorted (x : A) (l : list A) : list A :=
  match l with
  | [] => [x]
  | y :: l' =>
      if lt (key y) (key x) then y :: insert_sorted x l' else x :: y :: l'
  end.

Definition stable_sort (l : list A) : list A := fold_right insert_sorted [] l.

(** [l.sort(key=key, reverse=reverse)] for keys that [<] orders: a stable
    sort that compares keys with [<] alone; with [reverse] the list is
    reversed before and after, so that equal items keep their order.  The
    sorted list of such keys is the same whatever comparisons the sort
    makes; for keys that [<] does not order, as floats with a NaN among
    them, it is not, and this is not what [list.sort] leaves. *)
Definition list_sort (reverse : bool) (l : list A) : list A :=
  if reverse then rev (stable_sort (rev l)) else stable_sort l.

(** No item is below an item that stands before it. *)
Definition ascending (l : list A) : Prop :=
  StronglySorted (fun a b => lt (key b) (key a) = false) l.

(** No item is below an item that stands after it. *)
Definition descending (l : list A) : Prop :=
  StronglySorted (fun a b => lt (key a) (key b) = false) l.

(** The items whose key is in the class of [k], for a test [eqv] of equal
    keys. *)
Definition same_key (eqv : K -> K -> bool) (k : K) (a : A) : bool := eqv (key a) k.
End ListSort.

(** [l[:n]] *)
Definition slice_to {A} (n : Z) (l : list A) : list A :=
  if 0 <=? n then firstn (Z.to_nat n) l
  else firstn (List.length l - Z.to_nat (- n)) l.

Definition fetch_source `{Host} (limit : Z) (src : string) : io (list Market) :=
  if String.eqb src "manifold" then fetch_manifold limit
  else if String.eqb src "polymarket" then fetch_polymarket limit
  else throw (Exn ValueError ("Unknown source: " ++ src)).

(** One turn of the loop over the sources. *)
Definition collect_source `{Host} (limit : Z) (all_markets : list Market)
  (src : string) : io (list Market) :=
  try_except
    (ms <- fetch_source limit src ;; ret (all_markets ++ ms)%list)%io
    (fun exc =>
       (write_stderr ("[prediction_aggregator] source " ++ src ++ " failed: "
                      ++ exn_text exc ++ nl) ;;
        ret all_markets)%io).

Fixpoint collect `{Host} (limit : Z) (all_markets : list Market)
  (sources : list string) : io (list Market) :=
  match sources with
  | [] => ret all_markets
  | src :: rest =>
      (all_markets' <- collect_source limit all_markets src ;;
       collect limit all_markets' rest)%io
  end.

(** [m.liquidity or 0.0] and [m.volume_24h or 0.0] *)
Definition liquidity_key (m : Market) : float := or_zero (liquidity m).

Definition volume_key (m : Market) : float := or_zero (volume_24h m).

(** [[m for m in all_markets if (m.liquidity or 0.0) >= min_liquidity]] when
    a threshold is given. *)
Definition filter_liquidity (min_liquidity : option float) (l : list Market)
  : list Market :=
  match min_liquidity with
  | Some t => filter (fun m => PrimFloat.leb t (liquidity_key m)) l
  | None => l
  end.

(** [all_markets.sort(key=lambda m: (m.volume_24h or 0.0), reverse=True)] *)
Definition rank `{Host} (l : list Market) : list Market :=
  if existsb (fun m => PrimFloat.is_nan (volume_key m)) l then sort_with_nan l
  else list_sort PrimFloat.ltb volume_key true l.

(** [all_markets[:top_n]] when [top_n] is given. *)
Definition truncate (top_n : option Z) (l : list Market) : list Market :=
  match top_n with
  | Some n => slice_to n l
  | None => l
  end.

Definition aggregate_markets `{Host} (sources : list string) (limit : Z)
  (min_liquidity : option float) (top_n : option Z) : io (list Market) :=
  (all_markets <- collect limit [] sources ;;
   ret (truncate top_n (rank (filter_liquidity min_liquidity all_markets))))%io.

(** ** The entry point *)

(** The namespace [parse_args] returns. *)
Record args : Type := Args {
  arg_sources : list string;
  arg_limit : Z;
  arg_min_liquidity : option float;
  arg_top_n : Z;
  arg_out : string
}.

Definition now_utc `{Host} : string :=
  strftime_ISO8601 (Datetime utcnow 0 (Some 0)).

(** [main], from the parsed arguments on: the exit status it returns, or the
    exception that leaves it.  Only the call of [aggregate_markets] stands
    under the [try]. *)
Definition main `{Host} (a : args) : io Z :=
  (r <- try_except
          (ms <- aggregate_markets (arg_sources a) (arg_limit a)
                   (arg_min_liquidity a) (Some (arg_top_n a)) ;;
           ret (inr ms))
          (fun exc =>
             write_stderr ("[prediction_aggregator] error: " ++ exn_text exc ++ nl) ;;
             ret (inl 1)) ;;
   match r with
   | inl status => ret status
   | inr markets =>
       let payload :=
         {| generated_at := now_utc;
            snap_sources := arg_sources a;
            count := Z.of_nat (List.length markets);
            markets := markets |} in
       text <- lift (json_dumps payload) ;;
       if String.eqb (arg_out a) "-" then (write_stdout (text ++ nl) ;; ret 0)
       else (write_text (arg_out a) text ;; ret 0)
   end)%io.

(** ** A host to run the script on

    A host that does what CPython on a machine set to UTC does for the
    values below: [str] of [None], booleans, integers and strings; [lower]
    of ASCII text; [float] of a signed decimal numeral with an optional
    fraction; [fromisoformat] of [YYYY-MM-DD?HH:MM:SS] with an optional
    [+HH:MM] or [-HH:MM].  The responses of the network, the serializer and
    the disk are its parameters. *)

Definition sample_str (v : json) : string :=
  match v with
  | JNull => "None"
  | JBool true => "True"
  | JBool false => "False"
  | JInt z => str_of_int z
  | JStr s => s
  | _ => "..."
  end.

Definition lower_ascii (c : ascii) : ascii :=
  let n := N_of_ascii c in
  if ((65 <=? n) && (n <=? 90))%N then ascii_of_N (n + 32) else c.

Fixpoint sample_lower (s : string) : string :=
  match s with
  | EmptyString => EmptyString
  | String c s' => String (lower_ascii c) (sample_lower s')
  end.

Definition digit_value (c : ascii) : option Z :=
  let n := Z.of_N (N_of_ascii c) in
  if (48 <=? n) && (n <=? 57) then Some (n - 48) else None.

(** The value of a numeral read after the digits worth [acc]. *)
Fixpoint numeral (cs : list ascii) (acc : Z) : option Z :=
  match cs with
  | [] => Some acc
  | c :: cs' =>
      match digit_value c with
      | Some d => numeral cs' (10 * acc + d)
      | None => None
      end
  end.

Fixpoint split_at_dot (cs : list ascii) : list ascii * option (list ascii) :=
  match cs with
  | [] => ([], None)
  | c :: cs' =>
      if Ascii.eqb c "."%char then ([], Some cs')
      else let '(a, b) := split_at_dot cs' in (c :: a, b)
  end.

Definition sample_float_of_str (s : string) : result float :=
  let bad := Raise (Exn ValueError ("could not convert string to float: '" ++ s ++ "'")) in
  let cs := list_ascii_of_string s in
  let '(neg, body) :=
    match cs with
    | c :: r =>
        if Ascii.eqb c "-"%char then (true, r)
        else if Ascii.eqb c "+"%char then (false, r)
        else (false, cs)
    | [] => (false, cs)
    end in
  let '(ip, fp) := split_at_dot body in
  let fp := match fp with Some f => f | None => [] end in
  match (ip ++ fp)%list, numeral (ip ++ fp)%list 0 with
  | _ :: _, Some m =>
      match m with
      | Zpos p =>
          Ok (SF2Prim (SFdiv prec emax (S754_finite neg p 0)
                         (S754_finite false
                            (Z.to_pos (10 ^ Z.of_nat (List.length fp))) 0)))
      | _ => Ok (if neg then (-0)%float else 0%float)
      end
  | _, _ => bad
  end.

(** [_ymd2ord] of the [datetime] module. *)
Definition is_leap (y : Z) : bool :=
  (y mod 4 =? 0) && (negb (y mod 100 =? 0) || (y mod 400 =? 0)).

Definition ymd2ord (y m d : Z) : Z :=
  let y1 := y - 1 in
  (y1 * 365 + y1 / 4 - y1 / 100 + y1 / 400)
  + (DAYS_BEFORE_MONTH m + b2z ((2 <? m) && is_leap y)) + d.

Definition two_digits (a b : ascii) : option Z :=
  match digit_value a, digit_value b with
  | Some x, Some y => Some (10 * x + y)
  | _, _ => None
  end.

(** The offset in seconds that [+HH:MM] or [-HH:MM] denotes; nothing when
    the text is empty. *)
Definition sample_offset (cs : list ascii) : option (option Z) :=
  match cs with
  | [] => Some None
  | [sg; h1; h2; c; m1; m2] =>
      match two_digits h1 h2, two_digits m1 m2 with
      | Some h, Some m =>
          if Ascii.eqb c ":"%char && (h <? 24) && (m <? 60) then
            if Ascii.eqb sg "+"%char then Some (Some (h * 3600 + m * 60))
            else if Ascii.eqb sg "-"%char then Some (Some (- (h * 3600 + m * 60)))
            else None
          else None
      | _, _ => None
      end
  | _ => None
  end.

Definition sample_fromisoformat (s : string) : result datetime :=
  let bad := Raise (Exn ValueError ("Invalid isoformat string: '" ++ s ++ "'")) in
  match list_ascii_of_string s with
  | y1 :: y2 :: y3 :: y4 :: c1 :: m1 :: m2 :: c2 :: d1 :: d2 :: _ ::
    h1 :: h2 :: c3 :: n1 :: n2 :: c4 :: s1 :: s2 :: rest =>
      match two_digits y1 y2, two_digits y3 y4, two_digits m1 m2,
            two_digits d1 d2, two_digits h1 h2, two_digits n1 n2,
            two_digits s1 s2, sample_offset rest with
      | Some ya, Some yb, Some mo, Some dd, Some hh, Some mi, Some ss, Some off =>
          let y := 100 * ya + yb in
          if Ascii.eqb c1 "-"%char && Ascii.eqb c2 "-"%char
             && Ascii.eqb c3 ":"%char && Ascii.eqb c4 ":"%char
             && (1 <=? y) && (1 <=? mo) && (mo <=? 12) && (1 <=? dd)
             && (dd <=? DAYS_IN_MONTH mo + b2z ((mo =? 2) && is_leap y))
             && (hh <? 24) && (mi <? 60) && (ss <? 60)
          then Ok (Datetime ((ymd2ord y mo dd - EPOCH_ORDINAL) * 86400
                             + hh * 3600 + mi * 60 + ss) 0 off)
          else bad
      | _, _, _, _, _, _, _, _ => bad
      end
  | _ => bad
  end.

(** The sort of CPython 3.11 for a list of fewer than 64 items
    ([list_sort_impl], [count_run] and [binarysort] of [listobject.c]): the
    run the list begins with is found, reversed if it descends, and the
    other items are put into it one by one, each at the place a binary
    search finds for it.  All the comparisons are [<] on the keys. *)
Section ShortSort.
Context {A K : Type} (lt : K -> K -> bool) (key : A -> K).

(** The number of items after [prev] that go on a run in which no item is
    below the one before it, and a run in which every item is. *)
Fixpoint ascending_run (prev : A) (l : list A) : nat :=
  match l with
  | [] => O
  | x :: l' => if lt (key x) (key prev) then O else S (ascending_run x l')
  end.

Fixpoint descending_run (prev : A) (l : list A) : nat :=
  match l with
  | [] => O
  | x :: l' => if lt (key x) (key prev) then S (descending_run x l') else O
  end.

(** [count_run]: the length of the run, and whether it descends. *)
Definition count_run (l : list A) : nat * bool :=
  match l with
  | [] => (O, false)
  | [_] => (1%nat, false)
  | a :: b :: l' =>
      if lt (key b) (key a) then (S (S (descending_run b l')), true)
      else (S (S (ascending_run b l')), false)
  end.

(** The loop of [binarysort] that looks for the place of [pivot] in the
    sorted items [s], between the positions [l] and [r]. *)
Fixpoint bisect (steps : nat) (pivot : A) (s : list A) (l r : nat) : nat :=
  match steps with
  | O => l
  | S steps' =>
      if Nat.ltb l r then
        let p := (l + Nat.div2 (r - l))%nat in
        if lt (key pivot) (key (nth p s pivot)) then bisect steps' pivot s l p
        else bisect steps' pivot s (S p) r
      else l
  end.

Definition binary_insert (s : list A) (pivot : A) : list A :=
  let l := bisect (S (List.length s)) pivot s O (List.length s) in
  (firstn l s ++ pivot :: skipn l s)%list.

Definition short_sort (reverse : bool) (l : list A) : list A :=
  let l := if reverse then rev l else l in
  let '(n, desc) := count_run l in
  let run := if desc then rev (firstn n l) else firstn n l in
  let sorted := fold_left binary_insert (skipn n l) run in
  if reverse then rev sorted else sorted.

Lemma short_sort_permutes (reverse : bool) (l : list A) :
  Permutation (short_sort reverse l) l.
Proof.
  assert (forall rest run,
             Permutation (fold_left binary_insert rest run) (run ++ rest)%list) as F.
  { induction rest as [|x rest IH]; intros run; simpl.
    - now rewrite app_nil_r.
    - rewrite IH. unfold binary_insert.
      rewrite <- Permutation_middle, firstn_skipn.
      now rewrite <- Permutation_middle. }
  assert (forall l0, Permutation
            (let '(n, desc) := count_run l0 in
             fold_left binary_insert (skipn n l0)
               (if desc then rev (firstn n l0) else firstn n l0)) l0) as G.
  { intros l0. destruct (count_run l0) as [n desc]. rewrite F.
    apply Permutation_trans with (firstn n l0 ++ skipn n l0)%list;
      [ | now rewrite firstn_skipn ].
    apply Permutation_app_tail.
    destruct desc; [ symmetry; apply Permutation_rev | reflexivity ]. }
  unfold short_sort. destruct reverse.
  - specialize (G (rev l)). destruct (count_run (rev l)) as [n desc].
    apply Permutation_trans with (rev l); [ | symmetry; apply Permutation_rev ].
    apply Permutation_trans with (2 := G). symmetry. apply Permutation_rev.
  - specialize (G l). destruct (count_run l) as [n desc]. exact G.
Qed.
End ShortSort.

(** The host with the console [con]; it sorts as CPython 3.11 sorts a
    short list. *)
Definition sample_host_with_console (con : string -> option (nat * exn))
  (net : nat -> string -> result json)
  (dumps : snapshot -> result string) (dsk : string -> write_fault) : Host :=
  {| py_str := sample_str;
     py_lower := sample_lower;
     py_float_of_str := sample_float_of_str;
     fromisoformat := sample_fromisoformat;
     local_utcoffset := fun _ => Ok 0;
     urlopen_json := net;
     utcnow := 1700000000;
     json_dumps := dumps;
     disk := dsk;
     console := con;
     sort_with_nan := short_sort PrimFloat.ltb volume_key true;
     sort_with_nan_permutes := short_sort_permutes PrimFloat.ltb volume_key true |}.

Definition sound_console (s : string) : option (nat * exn) := None.

Definition sample_host (net : nat -> string -> result json)
  (dumps : snapshot -> result string) (dsk : string -> write_fault) : Host :=
  sample_host_with_console sound_console net dumps dsk.

(** The network that answers the Manifold endpoint with [manifold] and any
    other URL with [polymarket]. *)
Definition two_sources (manifold polymarket : result json) (n : nat) (u : string)
  : result json :=
  if String.prefix "https://api.manifold.markets/" u then manifold else polymarket.

Definition no_dumps (p : snapshot) : result string := Ok "{}".

Definition sound_disk (path : string) : write_fault := NoFault.

(** A Manifold record and a Polymarket event with one market, with the
    given name, 24h volume and liquidity. *)
Definition manifold_record (name : string) (volume liq : json) : json :=
  JObj [("id", JStr name); ("question", JStr "Will it rain?");
        ("creatorUsername", JStr "alice"); ("slug", JStr name);
        ("outcomeType", JStr "BINARY"); ("probability", JFloat 0.5%float);
        ("volume24Hours", volume); ("elasticity", liq);
        ("createdTime", JInt 1700000000000)].

Definition polymarket_market (name : string) (volume liq : json) : json :=
  JObj [("id", JStr name); ("prices", JArr [JStr "0.25"; JStr "0.75"]);
        ("volume", volume); ("liquidity", liq)].

Definition polymarket_fields (name : string) (ms : list json)
  : list (string * json) :=
  [("title", JStr "Will it snow?"); ("slug", JStr name);
   ("markets", JArr ms); ("endDate", JStr "2030-01-01T00:00:00Z")].

Definition polymarket_record (name : string) (ms : list json) : json :=
  JObj (polymarket_fields name ms).

(** Source 1 yields the 24h volumes 10 and 30, source 2 the volumes 30 and 5. *)
Definition ranking_host : Host :=
  sample_host
    (two_sources
       (Ok (JArr [manifold_record "a" (JInt 10) JNull;
                  manifold_record "b" (JInt 30) JNull]))
       (Ok (JArr [polymarket_record "c" [polymarket_market "c1" (JInt 30) JNull];
                  polymarket_record "d" [polymarket_market "d1" (JInt 5) JNull]])))
    no_dumps sound_disk.

(** One source yields the liquidity values [None], 10, 50 and 100. *)
Definition liquidity_host : Host :=
  sample_host
    (two_sources
       (Ok (JArr [manifold_record "a" JNull JNull;
                  manifold_record "b" JNull (JInt 10);
                  manifold_record "c" JNull (JInt 50);
                  manifold_record "d" JNull (JInt 100)]))
       (Ok (JArr [])))
    no_dumps sound_disk.

(** The request to the first source times out; the second source answers
    with one event. *)
Definition timeout_host : Host :=
  sample_host
    (two_sources
       (Raise (Exn OSError "<urlopen error timed out>"))
       (Ok (JArr [polymarket_record "c" [polymarket_market "c1" (JInt 30) JNull]])))
    no_dumps sound_disk.

(** An event with three markets, of volumes 5, 40 and 12, and an event whose
    markets have negative volumes. *)
Definition three_markets_list : list json :=
  [polymarket_market "m5" (JInt 5) (JInt 1);
   polymarket_market "m40" (JInt 40) (JInt 2);
   polymarket_market "m12" (JInt 12) (JInt 3)].

Definition three_markets : json := polymarket_record "e" three_markets_list.

Definition negative_volumes : json :=
  polymarket_record "e"
    [polymarket_market "x" (JInt (-5)) (JInt 1);
     polymarket_market "y" (JInt (-2)) (JInt 2)].

(** A serializer that prints the time and the count of a snapshot, a disk
    on which a write stops after twelve bytes, and a world in which the
    output file of an earlier run exists. *)
Definition brief_dumps (p : snapshot) : result string :=
  Ok ("{" ++ dquote ++ "generated_at" ++ dquote ++ ": " ++ dquote
      ++ generated_at p ++ dquote ++ ", " ++ dquote ++ "count" ++ dquote ++ ": "
      ++ str_of_int (count p) ++ "}").

Definition full_disk (path : string) : write_fault :=
  WriteFails 12 (Exn OSError "[Errno 28] No space left on device").

Definition full_disk_host : Host :=
  sample_host
    (two_sources (Ok (JArr [manifold_record "a" (JInt 10) JNull])) (Ok (JArr [])))
    brief_dumps full_disk.

Definition earlier_run : world :=
  World [] [] [] [("out/predictions.json", "{previous snapshot}")].

Definition to_file : args :=
  Args ["manifold"] 200 None 100 "out/predictions.json".

(** A batch in which one record has text where the 24h volume should be, and
    a batch of records that lack fields. *)
Definition one_bad_record : Host :=
  sample_host
    (two_sources
       (Ok (JArr [manifold_record "a" (JStr "n/a") JNull;
                  manifold_record "b" (JInt 10) JNull]))
       (Ok (JArr [polymarket_record "c" [polymarket_market "c1" (JStr "n/a") JNull];
                  polymarket_record "d" [polymarket_market "d1" (JInt 5) JNull]])))
    no_dumps sound_disk.

Definition sparse_records : list json :=
  [JObj []; JObj [("id", JStr "only-an-id")]; manifold_record "b" (JInt 10) JNull].

Definition sparse_events : list json :=
  [JObj []; JObj [("markets", JArr [JObj [("id", JStr "only-an-id")]])];
   polymarket_record "d"
     [JObj [("id", JStr "d1"); ("volume", JInt 5);
            ("prices", JArr [JFloat 0.25%float; JFloat 0.75%float])]]].

Definition sparse_batches : Host :=
  sample_host (two_sources (Ok (JArr sparse_records)) (Ok (JArr sparse_events)))
    no_dumps sound_disk.

(** Three markets, two of them with the same 24h volume and one without a
    volume. *)
Definition bare_market (src name : string) (volume : option float) : Market :=
  {| source := src; id := JStr name; question := JNull; url := "";
     outcome_type := "binary"; probability := JNull; implied_odds := JNull;
     volume_24h := volume; liquidity := None;
     created_at := None; close_time := None |}.

Definition tied_markets : list Market :=
  [bare_market "manifold" "a" (Some 10%float);
   bare_market "polymarket" "b" None;
   bare_market "polymarket" "c" (Some 10%float)].

(** Three markets, the second of which has a 24h volume that is no number,
    as [float] gives for the text [nan] and [json.loads] for [NaN]. *)
Definition nan_markets : list Market :=
  [bare_market "manifold" "a" (Some 1%float);
   bare_market "manifold" "b" (Some nan);
   bare_market "manifold" "c" (Some 2%float)].

(** The second source answers with an object that holds its events under
    the key [events]. *)
Definition wrapped_events : list json :=
  [polymarket_record "c" [polymarket_market "c1" (JInt 30) JNull];
   polymarket_record "d" []].

Definition wrapped_events_host : Host :=
  sample_host
    (two_sources (Ok (JArr [])) (Ok (JObj [("events", JArr wrapped_events)])))
    no_dumps sound_disk.

(** A console whose encoding cannot hold the text it is given. *)
Definition unencodable : exn :=
  Exn UnicodeEncodeError
    "'ascii' codec can't encode character: ordinal not in range(128)".

Definition ascii_console (s : string) : option (nat * exn) :=
  if forallb (fun c => (N_of_ascii c <? 128)%N) (list_ascii_of_string s) then None
  else Some (O, unencodable).

(** A serializer that prints the count of a snapshot and a letter with an
    accent, in its two bytes of UTF-8. *)
Definition accent_dumps (p : snapshot) : result string :=
  Ok ("{" ++ dquote ++ "caf"
      ++ String (ascii_of_nat 195) (String (ascii_of_nat 169) EmptyString)
      ++ dquote ++ ": " ++ str_of_int (count p) ++ "}").

Definition ascii_console_host : Host :=
  sample_host_with_console ascii_console
    (two_sources (Ok (JArr [manifold_record "a" (JInt 10) JNull])) (Ok (JArr [])))
    accent_dumps sound_disk.

Definition empty_world : world := World [] [] [] [].

(** ** Specification vocabulary *)

(** A float that is not NaN has a code in [Z * Z * Z] whose lexicographic
    order is the order [<] of the floats. *)
Definition sf_code (f : spec_float) : Z * Z * Z :=
  match f with
  | S754_nan => (0, 0, 0)
  | S754_zero _ => (0, 0, 0)
  | S754_infinity s => (if s then -2 else 2, 0, 0)
  | S754_finite s m e => if s then (-1, - e, - Zpos m) else (1, e, Zpos m)
  end.

Definition lex_lt (p q : Z * Z * Z) : Prop :=
  let '(a, b, c) := p in
  let '(a', b', c') := q in
  a < a' \/ (a = a' /\ (b < b' \/ (b = b' /\ c < c'))).

Definition sf_is_nan (f : spec_float) : bool :=
  match f with S754_nan => true | _ => false end.

Definition no_nan_volume (m : Market) : Prop :=
  PrimFloat.is_nan (volume_key m) = false.

(** Every earlier market has a 24h volume at least that of a later one. *)
Definition by_volume_descending (l : list Market) : Prop :=
  StronglySorted
    (fun a b => PrimFloat.leb (volume_key b) (volume_key a) = true) l.

(** The line the aggregator writes for a source that failed, and the world
    once a line went to the error channel. *)
Definition diagnostic (src : string) (exc : exn) : string :=
  "[prediction_aggregator] source " ++ src ++ " failed: " ++ exn_text exc ++ nl.

Definition logged (line : string) (w : world) : world :=
  World (stderr w ++ [line])%list (stdout w) (requests w) (files w).

Definition known_source (src : string) : bool :=
  String.eqb src "manifold" || String.eqb src "polymarket".

Definition unknown_source_error (src : string) : exn :=
  Exn ValueError ("Unknown source: " ++ src).

(** The canonical pattern [^\d{4}-\d{2}-\d{2}T\d{2}:\d{2}:\d{2}Z$]. *)
Definition is_digit (c : ascii) : bool :=
  let n := N_of_ascii c in ((48 <=? n) && (n <=? 57))%N.

Definition canonical (s : string) : bool :=
  match list_ascii_of_string s with
  | [y1; y2; y3; y4; c1; m1; m2; c2; d1; d2; t; h1; h2; c3; n1; n2; c4; s1; s2; z] =>
      is_digit y1 && is_digit y2 && is_digit y3 && is_digit y4
      && Ascii.eqb c1 "-"%char
      && is_digit m1 && is_digit m2 && Ascii.eqb c2 "-"%char
      && is_digit d1 && is_digit d2 && Ascii.eqb t "T"%char
      && is_digit h1 && is_digit h2 && Ascii.eqb c3 ":"%char
      && is_digit n1 && is_digit n2 && Ascii.eqb c4 ":"%char
      && is_digit s1 && is_digit s2 && Ascii.eqb z "Z"%char
  | _ => false
  end.

(** The month and the day of the month that [_ord2ymd] finds for the day
    [n] of a year, counted from 0. *)
Definition month_day (n : Z) (leapyear : bool) : Z * Z :=
  let month := Z.shiftr (n + 50) 5 in
  let preceding := DAYS_BEFORE_MONTH month + b2z ((2 <? month) && leapyear) in
  if n <? preceding then
    let month := month - 1 in
    let preceding :=
      preceding - (DAYS_IN_MONTH month + b2z ((month =? 2) && leapyear)) in
    (month, n - preceding + 1)
  else (month, n - preceding + 1).

Definition valid_month_day (md : Z * Z) : bool :=
  (1 <=? fst md) && (fst md <=? 12) && (1 <=? snd md) && (snd md <=? 31).

(** The numbers a timestamp can be given as. *)
Definition is_number (v : json) : bool :=
  match v with
  | JBool _ | JInt _ | JFloat _ => true
  | _ => false
  end.

(** The instant a number denotes when read as milliseconds since the
    epoch. *)
Definition epoch_millis `{Host} (v : json) : result datetime :=
  (ts_ms <- py_float v ;;
   fromtimestamp_utc (PrimFloat.div ts_ms 1000%float))%result.

(** The question, the slug and the markets of an event. *)
Definition event_question (d : list (string * json)) : json :=
  py_or (get d "title") (py_or (get d "question") (JStr "")).

Definition event_slug (d : list (string * json)) : json :=
  py_or (get d "slug") (py_or (get d "id") (JStr "")).

Definition event_markets (d : list (string * json)) : json :=
  py_or (get d "markets") (JArr []).

(** Among the volumes [vols], the one at position [i] is [v], no volume is
    above it, and every volume before it is below it. *)
Definition first_highest (vols : list float) (i : nat) (v : float) : Prop :=
  nth_error vols i = Some v
  /\ (forall j v', nth_error vols j = Some v' -> PrimFloat.ltb v v' = false)
  /\ (forall j v', (j < i)%nat -> nth_error vols j = Some v' ->
                   PrimFloat.ltb v' v = true).

(** The world once [path] holds [text]. *)
Definition with_file (path text : string) (w : world) : world :=
  World (stderr w) (stdout w) (requests w) (set_file path text (files w)).

(** The payload [main] builds from the markets. *)
Definition payload_of `{Host} (a : args) (ms : list Market) : snapshot :=
  {| generated_at := now_utc;
     snap_sources := arg_sources a;
     count := Z.of_nat (List.length ms);
     markets := ms |}.

(** Values of the types the adapters expect where a field is present: a
    number ([int] small enough for a [float], [float] or [bool]), a number or
    [None], text or [None]. *)
Definition plain_number (v : json) : bool :=
  match v with
  | JBool _ | JFloat _ => true
  | JInt z => negb (PrimFloat.is_infinity (float_of_Z z))
  | _ => false
  end.

Definition number_or_none (v : json) : bool :=
  match v with
  | JNull => true
  | _ => plain_number v
  end.

Definition text_or_none (v : json) : bool :=
  match v with
  | JNull | JStr _ => true
  | _ => false
  end.

(** A Manifold record: an object whose type marker, 24h volume and
    elasticity, where present, are text, a number and a number. *)
Definition manifold_well_typed (r : json) : bool :=
  match r with
  | JObj d =>
      text_or_none (get d "outcomeType")
      && number_or_none (get d "volume24Hours")
      && number_or_none (get d "elasticity")
  | _ => false
  end.

(** A market of an event: an object whose volume and liquidity, where
    present, are numbers and whose prices, where present, are a list that
    starts with a number. *)
Definition prices_well_typed (p : json) : bool :=
  match p with
  | JNull | JArr [] => true
  | JArr (x :: _) => plain_number x
  | _ => false
  end.

Definition market_well_typed (m : json) : bool :=
  match m with
  | JObj b =>
      number_or_none (get b "volume") && number_or_none (get b "liquidity")
      && prices_well_typed (get b "prices")
  | _ => false
  end.

(** An event: an object whose slug and identifier, where present, are text
    and whose markets, where present, are a list of markets. *)
Definition event_well_typed (e : json) : bool :=
  match e with
  | JObj d =>
      text_or_none (get d "slug") && text_or_none (get d "id")
      && match get d "markets" with
         | JNull => true
         | JArr ms => forallb market_well_typed ms
         | _ => false
         end
  | _ => false
  end.

(** The URLs the loop over the sources requests. *)
Definition source_urls (limit : Z) (src : string) : list string :=
  if String.eqb src "manifold" then [manifold_url limit]
  else if String.eqb src "polymarket" then [polymarket_url limit]
  else [].

Definition requested_urls (limit : Z) (sources : list string) : list string :=
  flat_map (source_urls limit) sources.

(** The world once a request went out and once a text went to the standard
    output. *)
Definition requested (u : string) (w : world) : world :=
  World (stderr w) (stdout w) (requests w ++ [u])%list (files w).

Definition printed (text : string) (w : world) : world :=
  World (stderr w) (stdout w ++ [text])%list (requests w) (files w).

(** The first second of the year 1000, from which on [%Y] prints four
    digits. *)
Definition YEAR_1000 : Z := -30610224000.

(** The text that [strftime] gives for an instant of the years 1 to 9999,
    which has the canonical pattern when the instant is of the year 1000 or
    a later one. *)
Definition utc_text (s : string) : Prop :=
  exists dt : datetime,
    s = strftime_ISO8601 dt
    /\ in_datetime_range (dt_wall dt) = true
    /\ (YEAR_1000 <= dt_wall dt -> canonical s = true).

Definition none_or_utc_text (o : option string) : Prop :=
  match o with
  | None => True
  | Some s => utc_text s
  end.

(** What a [Market] of the Manifold adapter holds of the record [r] it was
    built from. *)
Definition manifold_reading (r : json) (m : Market) : Prop :=
  exists d : list (string * json),
    r = JObj d
    /\ source m = "manifold"
    /\ id m = get_default d "id" (JStr "")
    /\ question m = get_default d "question" (JStr "")
    /\ implied_odds m = probability m
    /\ probability m
       = (if eq_str (get d "outcomeType") "BINARY" then get d "probability"
          else JNull)
    /\ (volume_24h m = None <-> get d "volume24Hours" = JNull)
    /\ (liquidity m = None <-> get d "elasticity" = JNull)
    /\ none_or_utc_text (created_at m)
    /\ none_or_utc_text (close_time m).

(** What a [Market] of the Polymarket adapter holds of the event [e] it was
    built from: [b] is the market of the event it was taken from. *)
Definition polymarket_reading `{Host} (e : json) (m : Market) : Prop :=
  exists (d b : list (string * json)) (slug : string) (ms : list json),
    e = JObj d
    /\ event_slug d = JStr slug
    /\ py_iter (event_markets d) = Ok ms
    /\ In (JObj b) ms
    /\ b <> []
    /\ source m = "polymarket"
    /\ id m = JStr (py_str (get b "id"))
    /\ question m = event_question d
    /\ url m = "https://polymarket.com/event/" ++ slug
    /\ (outcome_type m = "binary" \/ outcome_type m = "multi")
    /\ implied_odds m = probability m
    /\ (probability m = JNull \/ exists f, probability m = JFloat f)
    /\ (volume_24h m = None <-> get b "volume" = JNull)
    /\ (liquidity m = None <-> get b "liquidity" = JNull)
    /\ none_or_utc_text (created_at m)
    /\ none_or_utc_text (close_time m).

(** * Facts *)

(** ** The order of binary64 floats *)

Ltac order_cases ea eb ma mb :=
  change (Pos.compare_cont Eq ma mb) with (Pos.compare ma mb);
  destruct (Z.compare_spec ea eb); destruct (Pos.compare_spec ma mb);
  simpl; split; intros; try discriminate; try reflexivity; subst; lia.

Lemma SFltb_code (a b : spec_float) :
  sf_is_nan a = false -> sf_is_nan b = false ->
  (SFltb a b = true <-> lex_lt (sf_code a) (sf_code b)).
Proof.
  unfold SFltb.
  destruct a as [sa|sa| |sa ma ea], b as [sb|sb| |sb mb eb]; simpl;
    try discriminate; intros _ _;
    try (destruct sa); try (destruct sb); simpl;
    try (split; [ discriminate | lia ]);
    try (split; [ lia | reflexivity ]);
    order_cases ea eb ma mb.
Qed.

Lemma SFeqb_code (a b : spec_float) :
  sf_is_nan a = false -> sf_is_nan b = false ->
  (SFeqb a b = true <-> sf_code a = sf_code b).
Proof.
  unfold SFeqb.
  destruct a as [sa|sa| |sa ma ea], b as [sb|sb| |sb mb eb]; simpl;
    try discriminate; intros _ _;
    try (destruct sa); try (destruct sb); simpl;
    try (split; [ discriminate | congruence ]);
    try (split; [ congruence | reflexivity ]);
    change (Pos.compare_cont Eq ma mb) with (Pos.compare ma mb);
    destruct (Z.compare_spec ea eb); destruct (Pos.compare_spec ma mb);
    simpl; split; intros E; try discriminate; try reflexivity; subst;
    try reflexivity; try (injection E; intros; lia).
Qed.

Lemma SFleb_code (a b : spec_float) :
  sf_is_nan a = false -> sf_is_nan b = false ->
  (SFleb a b = true <-> ~ lex_lt (sf_code b) (sf_code a)).
Proof.
  unfold SFleb.
  destruct a as [sa|sa| |sa ma ea], b as [sb|sb| |sb mb eb]; simpl;
    try discriminate; intros _ _;
    try (destruct sa); try (destruct sb); simpl;
    try (split; [ discriminate | lia ]);
    try (split; [ lia | reflexivity ]);
    order_cases ea eb ma mb.
Qed.

Lemma is_nan_spec (x : float) : PrimFloat.is_nan x = sf_is_nan (Prim2SF x).
Proof.
  unfold PrimFloat.is_nan. rewrite eqb_spec.
  destruct (sf_is_nan (Prim2SF x)) eqn:E.
  - destruct (Prim2SF x); try discriminate. reflexivity.
  - apply negb_false_iff. apply SFeqb_code; auto.
Qed.

Lemma ltb_not_nan (x y : float) :
  PrimFloat.ltb x y = true -> PrimFloat.is_nan x = false /\ PrimFloat.is_nan y = false.
Proof.
  rewrite ltb_spec, !is_nan_spec. unfold SFltb.
  destruct (Prim2SF x), (Prim2SF y); simpl; try discriminate; auto.
Qed.

Lemma ltb_code (x y : float) :
  PrimFloat.ltb x y = true <->
  PrimFloat.is_nan x = false /\ PrimFloat.is_nan y = false /\
  lex_lt (sf_code (Prim2SF x)) (sf_code (Prim2SF y)).
Proof.
  split.
  - intros L. destruct (ltb_not_nan _ _ L) as [Nx Ny]. repeat split; auto.
    rewrite ltb_spec in L. rewrite is_nan_spec in Nx, Ny. now apply SFltb_code.
  - intros (Nx & Ny & L). rewrite ltb_spec. rewrite is_nan_spec in Nx, Ny.
    now apply SFltb_code.
Qed.

Lemma ltb_asym (x y : float) : PrimFloat.ltb x y = true -> PrimFloat.ltb y x = false.
Proof.
  intros L. apply not_true_is_false. intros L'.
  apply ltb_code in L. apply ltb_code in L'.
  destruct L as (_ & _ & L), L' as (_ & _ & L').
  unfold lex_lt in *.
  destruct (sf_code (Prim2SF x)) as [[a b] c], (sf_code (Prim2SF y)) as [[a' b'] c'].
  lia.
Qed.

Lemma ltb_negtrans (x y z : float) :
  PrimFloat.is_nan y = false -> PrimFloat.ltb x z = true ->
  PrimFloat.ltb x y = true \/ PrimFloat.ltb y z = true.
Proof.
  intros Ny L. apply ltb_code in L. destruct L as (Nx & Nz & L).
  assert (lex_lt (sf_code (Prim2SF x)) (sf_code (Prim2SF y)) \/
          lex_lt (sf_code (Prim2SF y)) (sf_code (Prim2SF z))) as [C | C].
  { unfold lex_lt in *.
    destruct (sf_code (Prim2SF x)) as [[a b] c], (sf_code (Prim2SF y)) as [[a' b'] c'],
             (sf_code (Prim2SF z)) as [[a'' b''] c''].
    lia. }
  - left. apply ltb_code. auto.
  - right. apply ltb_code. auto.
Qed.

Lemma eqb_code (x y : float) :
  PrimFloat.eqb x y = true <->
  PrimFloat.is_nan x = false /\ PrimFloat.is_nan y = false /\
  sf_code (Prim2SF x) = sf_code (Prim2SF y).
Proof.
  rewrite eqb_spec, !is_nan_spec. split.
  - intros E.
    assert (sf_is_nan (Prim2SF x) = false /\ sf_is_nan (Prim2SF y) = false) as [Nx Ny].
    { unfold SFeqb in E. destruct (Prim2SF x), (Prim2SF y); simpl in *; try discriminate; auto. }
    repeat split; auto. now apply SFeqb_code.
  - intros (Nx & Ny & E). now apply SFeqb_code.
Qed.

Lemma eqb_not_ltb (x y k : float) :
  PrimFloat.eqb x k = true -> PrimFloat.eqb y k = true -> PrimFloat.ltb x y = false.
Proof.
  intros Ex Ey. apply not_true_is_false. intros L.
  apply eqb_code in Ex. apply eqb_code in Ey. apply ltb_code in L.
  destruct Ex as (_ & _ & Ex), Ey as (_ & _ & Ey), L as (_ & _ & L).
  rewrite Ex, <- Ey in L. unfold lex_lt in L.
  destruct (sf_code (Prim2SF y)) as [[a b] c]. lia.
Qed.

Lemma leb_code (x y : float) :
  PrimFloat.is_nan x = false -> PrimFloat.is_nan y = false ->
  (PrimFloat.leb x y = true <-> PrimFloat.ltb y x = false).
Proof.
  intros Nx Ny. rewrite leb_spec, ltb_spec. rewrite is_nan_spec in Nx, Ny.
  rewrite (SFleb_code _ _ Nx Ny). rewrite <- (SFltb_code _ _ Ny Nx).
  destruct (SFltb (Prim2SF y) (Prim2SF x)); split; intros; congruence.
Qed.

(** ** Sorting *)

Lemma StronglySorted_app {A} (R : A -> A -> Prop) (l1 l2 : list A) :
  StronglySorted R l1 -> StronglySorted R l2 ->
  (forall x y, In x l1 -> In y l2 -> R x y) ->
  StronglySorted R (l1 ++ l2)%list.
Proof.
  induction l1 as [|a l1 IH]; simpl; intros S1 S2 C; auto.
  inversion S1 as [|? ? S1' F1]; subst. constructor.
  - apply IH; auto.
  - apply Forall_app. split; auto.
    apply Forall_forall. intros y Hy. apply C; auto.
Qed.

Lemma StronglySorted_rev {A} (R : A -> A -> Prop) (l : list A) :
  StronglySorted R l -> StronglySorted (fun a b => R b a) (rev l).
Proof.
  induction 1 as [|a l S IH F]; simpl.
  - constructor.
  - apply StronglySorted_app; auto.
    + repeat constructor.
    + intros x y Hx [<- | []]. apply in_rev in Hx.
      rewrite Forall_forall in F. auto.
Qed.

Section SortFacts.
Context {A K : Type} (lt : K -> K -> bool) (key : A -> K).
(** The keys the order is total on, and the test of equal keys. *)
Variable ok : K -> Prop.
Variable eqv : K -> K -> bool.
Hypothesis lt_asym : forall a b, lt a b = true -> lt b a = false.
Hypothesis lt_negtrans :
  forall a b c, ok b -> lt a c = true -> lt a b = true \/ lt b c = true.
Hypothesis eqv_lt :
  forall a b k, eqv a k = true -> eqv b k = true -> lt a b = false.

Lemma insert_sorted_perm (x : A) (l : list A) :
  Permutation (insert_sorted lt key x l) (x :: l).
Proof.
  induction l as [|y l IH]; simpl; auto.
  destruct (lt (key y) (key x)); auto.
  rewrite IH. apply perm_swap.
Qed.

Lemma stable_sort_perm (l : list A) : Permutation (stable_sort lt key l) l.
Proof.
  induction l as [|x l IH]; simpl; auto.
  rewrite insert_sorted_perm. auto.
Qed.

Lemma list_sort_perm (reverse : bool) (l : list A) :
  Permutation (list_sort lt key reverse l) l.
Proof.
  unfold list_sort. destruct reverse.
  - rewrite <- Permutation_rev, stable_sort_perm. symmetry. apply Permutation_rev.
  - apply stable_sort_perm.
Qed.

Lemma insert_sorted_ascending (x : A) (l : list A) :
  Forall (fun a => ok (key a)) l ->
  ascending lt key l -> ascending lt key (insert_sorted lt key x l).
Proof.
  unfold ascending. intros O S. induction S as [|y l S IH F]; simpl.
  - repeat constructor.
  - inversion O as [|? ? Oy Ol]; subst.
    destruct (lt (key y) (key x)) eqn:E.
    + constructor; auto.
      eapply Permutation_Forall; [ symmetry; apply insert_sorted_perm | ].
      constructor; auto.
    + constructor; [ constructor; auto | ].
      constructor; auto.
      rewrite Forall_forall in *. intros z Hz.
      destruct (lt (key z) (key x)) eqn:Ez; auto.
      destruct (lt_negtrans _ (key y) _ Oy Ez) as [C | C].
      * rewrite (F z Hz) in C. discriminate.
      * congruence.
Qed.

Lemma stable_sort_ascending (l : list A) :
  Forall (fun a => ok (key a)) l -> ascending lt key (stable_sort lt key l).
Proof.
  induction 1 as [|x l Ox Ol IH]; simpl.
  - constructor.
  - apply insert_sorted_ascending; auto.
    eapply Permutation_Forall; [ symmetry; apply stable_sort_perm | auto ].
Qed.

Lemma list_sort_descending (l : list A) :
  Forall (fun a => ok (key a)) l -> descending lt key (list_sort lt key true l).
Proof.
  intros O. unfold list_sort, descending.
  apply (StronglySorted_rev (fun a b => lt (key b) (key a) = false)).
  apply stable_sort_ascending.
  eapply Permutation_Forall; [ apply Permutation_rev | auto ].
Qed.

Lemma insert_sorted_stable (k : K) (x : A) (l : list A) :
  filter (same_key key eqv k) (insert_sorted lt key x l)
  = filter (same_key key eqv k) (x :: l).
Proof.
  induction l as [|y l IH]; auto.
  simpl insert_sorted. destruct (lt (key y) (key x)) eqn:E; auto.
  simpl in *. rewrite IH.
  destruct (same_key key eqv k x) eqn:Ex, (same_key key eqv k y) eqn:Ey; auto.
  unfold same_key in *. rewrite (eqv_lt _ _ _ Ey Ex) in E. discriminate.
Qed.

Lemma stable_sort_stable (k : K) (l : list A) :
  filter (same_key key eqv k) (stable_sort lt key l) = filter (same_key key eqv k) l.
Proof.
  induction l as [|x l IH]; auto.
  simpl stable_sort. rewrite insert_sorted_stable. simpl. now rewrite IH.
Qed.

Lemma filter_reversed (f : A -> bool) (l : list A) :
  filter f (rev l) = rev (filter f l).
Proof.
  induction l as [|x l IH]; auto.
  simpl. rewrite filter_app, IH. simpl. destruct (f x); simpl; auto.
  now rewrite app_nil_r.
Qed.

Lemma list_sort_stable (reverse : bool) (k : K) (l : list A) :
  filter (same_key key eqv k) (list_sort lt key reverse l)
  = filter (same_key key eqv k) l.
Proof.
  unfold list_sort. destruct reverse.
  - rewrite filter_reversed, stable_sort_stable, filter_reversed.
    apply rev_involutive.
  - apply stable_sort_stable.
Qed.
End SortFacts.

Lemma StronglySorted_weaken {A} (R R' : A -> A -> Prop) (P : A -> Prop) (l : list A) :
  (forall a b, P a -> P b -> R a b -> R' a b) ->
  Forall P l -> StronglySorted R l -> StronglySorted R' l.
Proof.
  intros W F S. induction S as [|a l S IH Fa]; constructor.
  - inversion F; auto.
  - inversion F as [|? ? Pa Pl]; subst.
    rewrite Forall_forall in *. intros b Hb. apply W; auto.
Qed.

(** ** The three list stages of the aggregator *)

Lemma rank_perm `{Host} (l : list Market) : Permutation (rank l) l.
Proof.
  unfold rank. destruct (existsb _ l).
  - apply sort_with_nan_permutes.
  - apply list_sort_perm.
Qed.

(** Without a NaN among the keys the ranking is the stable sort. *)
Lemma rank_without_nan `{Host} (l : list Market) :
  Forall no_nan_volume l -> rank l = list_sort PrimFloat.ltb volume_key true l.
Proof.
  intros N. unfold rank.
  destruct (existsb _ l) eqn:E; [ | reflexivity ].
  apply existsb_exists in E. destruct E as (m & I & E).
  rewrite Forall_forall in N. specialize (N m I).
  unfold no_nan_volume in N. congruence.
Qed.

Lemma rank_descending `{Host} (l : list Market) :
  Forall no_nan_volume l -> by_volume_descending (rank l).
Proof.
  intros N.
  assert (Forall no_nan_volume (rank l)) as N'.
  { eapply Permutation_Forall; [ symmetry; apply rank_perm | auto ]. }
  eapply StronglySorted_weaken; [ | exact N' | ].
  - intros a b Na Nb L. apply (proj2 (leb_code _ _ Nb Na)). exact L.
  - rewrite (rank_without_nan l N).
    apply (list_sort_descending PrimFloat.ltb volume_key
             (fun k => PrimFloat.is_nan k = false)); auto.
    + apply ltb_asym.
    + intros a b c. apply ltb_negtrans.
Qed.

Lemma rank_stable `{Host} (k : float) (l : list Market) :
  Forall no_nan_volume l ->
  filter (same_key volume_key PrimFloat.eqb k) (rank l)
  = filter (same_key volume_key PrimFloat.eqb k) l.
Proof.
  intros N. rewrite (rank_without_nan l N).
  apply list_sort_stable. intros a b k'. apply eqb_not_ltb.
Qed.

(** ** The loop over the sources *)

Section Aggregator.
Context {H : Host}.

Lemma collect_source_run (limit : Z) (acc : list Market) (src : string) (w : world) :
  collect_source limit acc src w =
  match fetch_source limit src w with
  | (Ok ms, w') => (Ok (acc ++ ms)%list, w')
  | (Raise e, w') => (Ok acc, logged (diagnostic src e) w')
  end.
Proof.
  unfold collect_source, try_except, bind.
  destruct (fetch_source limit src w) as [[ms | e] w']; reflexivity.
Qed.

Lemma collect_cons (limit : Z) (acc : list Market) (src : string)
  (rest : list string) (w : world) :
  collect limit acc (src :: rest) w =
  match collect_source limit acc src w with
  | (Ok acc', w') => collect limit acc' rest w'
  | (Raise e, w') => (Raise e, w')
  end.
Proof. reflexivity. Qed.

(** The loop always comes to its end. *)
Lemma collect_returns (limit : Z) (sources : list string) :
  forall acc w, exists l w', collect limit acc sources w = (Ok l, w').
Proof.
  induction sources as [|src rest IH]; intros acc w.
  - exists acc, w. reflexivity.
  - rewrite collect_cons, collect_source_run.
    destruct (fetch_source limit src w) as [[ms | e] w']; apply IH.
Qed.

Lemma collect_app (limit : Z) (l1 l2 : list string) :
  forall acc w acc1 w1,
    collect limit acc l1 w = (Ok acc1, w1) ->
    collect limit acc (l1 ++ l2)%list w = collect limit acc1 l2 w1.
Proof.
  induction l1 as [|src rest IH]; intros acc w acc1 w1 E.
  - simpl in E. injection E as <- <-. reflexivity.
  - rewrite <- app_comm_cons, collect_cons. rewrite collect_cons in E.
    destruct (collect_source limit acc src w) as [[a | e] w'].
    + eapply IH; eauto.
    + discriminate.
Qed.

(** What the loop returns is what it started from followed by what it would
    return started from nothing. *)
Lemma collect_from (limit : Z) (sources : list string) :
  forall acc w l w',
    collect limit acc sources w = (Ok l, w') ->
    exists ms, l = (acc ++ ms)%list /\ collect limit [] sources w = (Ok ms, w').
Proof.
  induction sources as [|src rest IH]; intros acc w l w' E.
  - simpl in E. injection E as <- <-. exists []. now rewrite app_nil_r.
  - rewrite collect_cons, collect_source_run in *.
    destruct (fetch_source limit src w) as [[ms | e] w1].
    + destruct (IH _ _ _ _ E) as (ms' & -> & E').
      destruct (collect_returns limit rest ([] ++ ms)%list w1) as (l2 & w2 & E2).
      destruct (IH _ _ _ _ E2) as (ms2 & -> & E2').
      rewrite E2' in E'. injection E' as <- <-.
      exists (ms ++ ms2)%list. rewrite E2. now rewrite app_assoc.
    + destruct (IH _ _ _ _ E) as (ms' & -> & E').
      destruct (collect_returns limit rest [] (logged (diagnostic src e) w1))
        as (l2 & w2 & E2).
      destruct (IH _ _ _ _ E2) as (ms2 & -> & E2').
      rewrite E2' in E'. injection E' as <- <-.
      exists ms2. now rewrite E2.
Qed.

Lemma aggregate_markets_run (sources : list string) (limit : Z)
  (min_liquidity : option float) (top_n : option Z) (w : world) (l : list Market)
  (w' : world) :
  collect limit [] sources w = (Ok l, w') ->
  aggregate_markets sources limit min_liquidity top_n w
  = (Ok (truncate top_n (rank (filter_liquidity min_liquidity l))), w').
Proof.
  intros E. unfold aggregate_markets, bind. now rewrite E.
Qed.

(** The adapters and the unknown-source branch leave the error channel, the
    standard output and the files alone. *)
Lemma fetch_source_channels (limit : Z) (src : string) (w : world) :
  let w' := snd (fetch_source limit src w) in
  stderr w' = stderr w /\ stdout w' = stdout w /\ files w' = files w.
Proof.
  unfold fetch_source, fetch_manifold, fetch_polymarket, bind, urlopen, lift, throw.
  destruct (String.eqb src "manifold");
    [ | destruct (String.eqb src "polymarket") ]; simpl;
    try destruct (urlopen_json _ _); simpl; auto.
Qed.

(** A request goes out for a known source, none for any other name. *)
Lemma fetch_source_requests (limit : Z) (src : string) (w : world) :
  requests (snd (fetch_source limit src w)) =
  if String.eqb src "manifold" then (requests w ++ [manifold_url limit])%list
  else if String.eqb src "polymarket" then (requests w ++ [polymarket_url limit])%list
  else requests w.
Proof.
  unfold fetch_source, fetch_manifold, fetch_polymarket, bind, urlopen, lift, throw.
  destruct (String.eqb src "manifold");
    [ | destruct (String.eqb src "polymarket") ]; simpl;
    try destruct (urlopen_json _ _); simpl; auto.
Qed.

Lemma fetch_source_unknown (limit : Z) (src : string) (w : world) :
  known_source src = false ->
  fetch_source limit src w = (Raise (unknown_source_error src), w).
Proof.
  unfold known_source, fetch_source. intros K.
  apply orb_false_iff in K. destruct K as [-> ->]. reflexivity.
Qed.

End Aggregator.

Lemma slice_to_negative {A} (n : Z) (l : list A) :
  n < 0 ->
  l = (slice_to n l ++ skipn (List.length l - Z.to_nat (- n)) l)%list
  /\ List.length (skipn (List.length l - Z.to_nat (- n)) l)
     = Nat.min (Z.to_nat (- n)) (List.length l).
Proof.
  intros N. unfold slice_to.
  destruct (0 <=? n) eqn:E; [ apply Z.leb_le in E; lia | ].
  split.
  - symmetry. apply firstn_skipn.
  - rewrite length_skipn. lia.
Qed.

(** ** The claims on filtering, ranking and truncation *)

(** C10: with a negative [top_n] the aggregator returns the filtered and
    ranked list without its last [|top_n|] markets (nothing is left when
    there are no more than [|top_n|] of them), so it returns more markets
    than [top_n] says. *)
Theorem C10_negative_top_n_drops_tail :
  forall (H : Host) (sources : list string) (limit : Z)
         (min_liquidity : option float) (top_n : Z) (w : world),
    top_n < 0 ->
    exists (all : list Market) (w' : world) (result dropped : list Market),
      collect limit [] sources w = (Ok all, w')
      /\ aggregate_markets sources limit min_liquidity (Some top_n) w = (Ok result, w')
      /\ rank (filter_liquidity min_liquidity all) = (result ++ dropped)%list
      /\ List.length dropped
         = Nat.min (Z.to_nat (- top_n))
             (List.length (rank (filter_liquidity min_liquidity all)))
      /\ ((List.length (rank (filter_liquidity min_liquidity all))
           <= Z.to_nat (- top_n))%nat -> result = [])
      /\ top_n < Z.of_nat (List.length result).
Proof.
  intros H sources limit min_liquidity top_n w N.
  destruct (collect_returns limit sources [] w) as (all & w' & E).
  set (ranked := rank (filter_liquidity min_liquidity all)).
  destruct (slice_to_negative top_n ranked N) as [S L].
  exists all, w', (slice_to top_n ranked),
    (skipn (List.length ranked - Z.to_nat (- top_n)) ranked).
  rewrite (aggregate_markets_run _ _ _ _ _ _ _ E). fold ranked.
  clearbody ranked.
  assert (List.length ranked
          = (List.length (slice_to top_n ranked)
             + Nat.min (Z.to_nat (- top_n)) (List.length ranked))%nat) as Len.
  { rewrite <- L, <- length_app, <- S. reflexivity. }
  repeat split; auto.
  - intros Le. apply length_zero_iff_nil. lia.
  - lia.
Qed.

Lemma C10_negative_top_n_witness :
  -1 < 0 /\
  exists (all : list Market) (w' : world) (result dropped : list Market),
    @collect ranking_host 200 [] ["manifold"; "polymarket"] empty_world = (Ok all, w')
    /\ @aggregate_markets ranking_host ["manifold"; "polymarket"] 200 None (Some (-1))
         empty_world = (Ok result, w')
    /\ @rank ranking_host (filter_liquidity None all) = (result ++ dropped)%list
    /\ List.length dropped
       = Nat.min (Z.to_nat (- -1))
           (List.length (@rank ranking_host (filter_liquidity None all)))
    /\ ((List.length (@rank ranking_host (filter_liquidity None all))
         <= Z.to_nat (- -1))%nat
        -> result = [])
    /\ -1 < Z.of_nat (List.length result).
Proof.
  split; [ lia | ].
  apply (C10_negative_top_n_drops_tail ranking_host ["manifold"; "polymarket"]
           200 None (-1) empty_world).
  lia.
Defined.

(** With [top_n = -1] the four markets of the two sources come back as
    three. *)
Example negative_top_n_run :
  option_map (fun l => map (fun m => (id m, volume_24h m)) l)
    (match @aggregate_markets ranking_host ["manifold"; "polymarket"] 200 None
             (Some (-1)) empty_world with
     | (Ok l, _) => Some l
     | (Raise _, _) => None
     end)
  = Some [(JStr "b", Some 30%float); (JStr "c1", Some 30%float);
          (JStr "a", Some 10%float)].
Proof. vm_compute. reflexivity. Qed.

(** C5: with a threshold the aggregator keeps exactly the markets whose
    liquidity, [None] counting as 0.0, is at least the threshold; of the
    liquidity values [None], 10, 50 and 100, a threshold of 50 keeps the
    markets with 50 and 100. *)
Theorem C5_min_liquidity_keeps_at_least_threshold :
  (forall (H : Host) (sources : list string) (limit : Z) (t : float) (w : world),
      exists (all : list Market) (w' : world) (result : list Market),
        collect limit [] sources w = (Ok all, w')
        /\ aggregate_markets sources limit (Some t) None w = (Ok result, w')
        /\ Permutation result
             (filter (fun m => PrimFloat.leb t (liquidity_key m)) all)
        /\ (forall m, In m result <->
                      In m all /\ PrimFloat.leb t (liquidity_key m) = true))
  /\ (forall m, liquidity m = None -> liquidity_key m = 0%float)
  /\ (forall m x, liquidity m = Some x -> PrimFloat.eqb x 0 = false ->
                  liquidity_key m = x)
  /\ (exists (all result : list Market) (w' : world),
        @collect liquidity_host 200 [] ["manifold"] empty_world = (Ok all, w')
        /\ map liquidity all = [None; Some 10%float; Some 50%float; Some 100%float]
        /\ @aggregate_markets liquidity_host ["manifold"] 200 (Some 50%float) None
             empty_world = (Ok result, w')
        /\ map id result = [JStr "c"; JStr "d"]
        /\ map liquidity result = [Some 50%float; Some 100%float]).
Proof.
  split; [ | split; [ | split ] ].
  - intros H sources limit t w.
    destruct (collect_returns limit sources [] w) as (all & w' & E).
    exists all, w', (rank (filter_liquidity (Some t) all)).
    rewrite (aggregate_markets_run _ _ _ _ _ _ _ E).
    split; [ exact E | split; [ reflexivity | split ] ].
    + apply rank_perm.
    + intros m. simpl. split.
      * intros I. eapply Permutation_in in I; [ | apply rank_perm ].
        apply filter_In in I. exact I.
      * intros I. eapply Permutation_in; [ symmetry; apply rank_perm | ].
        apply filter_In. exact I.
  - intros m E. unfold liquidity_key. now rewrite E.
  - intros m x E Z. unfold liquidity_key. rewrite E. simpl. now rewrite Z.
  - eexists _, _, _. vm_compute. repeat split; reflexivity.
Qed.

(** C4: a 24h volume that is NaN breaks the order.  Of three markets with
    the volumes 1, NaN and 2, on an interpreter that sorts them as CPython
    3.11 sorts a short list, the ranking leaves the list as it is: the market
    of volume 1 stays before the market of volume 2, and the list is not in
    descending order of volume. *)
Theorem C4_nan_volume_breaks_the_order :
  forall H : Host,
    sort_with_nan nan_markets = short_sort PrimFloat.ltb volume_key true nan_markets ->
    rank nan_markets = nan_markets
    /\ map volume_24h (rank nan_markets)
       = [Some 1%float; Some nan; Some 2%float]
    /\ ~ by_volume_descending (rank nan_markets).
Proof.
  intros H S.
  assert (rank nan_markets = nan_markets) as R.
  { unfold rank. change (existsb _ nan_markets) with true. cbv iota.
    rewrite S. vm_compute. reflexivity. }
  rewrite R. split; [ reflexivity | split; [ reflexivity | ] ].
  intros D. inversion D as [|a l _ F]; subst.
  inversion F as [|b l' _ F']; subst.
  inversion F' as [|c l'' L _]; subst.
  vm_compute in L. discriminate.
Qed.

Lemma C4_nan_volume_witness :
  @sort_with_nan ranking_host nan_markets
  = short_sort PrimFloat.ltb volume_key true nan_markets
  /\ @rank ranking_host nan_markets = nan_markets
  /\ map volume_24h (@rank ranking_host nan_markets)
     = [Some 1%float; Some nan; Some 2%float]
  /\ ~ by_volume_descending (@rank ranking_host nan_markets).
Proof.
  split; [ reflexivity | ].
  apply (C4_nan_volume_breaks_the_order ranking_host). reflexivity.
Defined.

(** ** The claims on sources that fail *)

(** C1, as the specification states it, fails: asked for Manifold and for the
    unknown name [kalshi], the aggregator returns Manifold's markets instead
    of raising, after it sent the request to Manifold, and the unknown name
    is reported on the error channel like any failed source. *)
Lemma C1_unknown_source_counterexample :
  known_source "kalshi" = false
  /\ exists (result : list Market) (w' : world),
       @aggregate_markets ranking_host ["manifold"; "kalshi"] 200 None None
         empty_world = (Ok result, w')
       /\ map id result = [JStr "b"; JStr "a"]
       /\ requests w' = ["https://api.manifold.markets/v0/markets?limit=200"]
       /\ stderr w'
          = ["[prediction_aggregator] source kalshi failed: Unknown source: kalshi"
             ++ nl].
Proof.
  split; [ reflexivity | ].
  eexists _, _. vm_compute. repeat split; reflexivity.
Qed.

(** C1, amended: a name that is neither [manifold] nor [polymarket] does not
    make the call raise.  Its turn of the loop sends no request and adds no
    market; it writes one line to the error channel, and the sources named
    before and after it are fetched as usual. *)
Theorem C1_unknown_source_is_logged_and_skipped :
  forall (H : Host) (limit : Z) (min_liquidity : option float) (top_n : option Z)
         (pre post : list string) (u : string) (w : world),
    known_source u = false ->
    exists (a1 a2 : list Market) (w1 w2 : world),
      let w1' := logged (diagnostic u (unknown_source_error u)) w1 in
      collect limit [] pre w = (Ok a1, w1)
      /\ collect_source limit a1 u w1 = (Ok a1, w1')
      /\ requests w1' = requests w1
      /\ stderr w1' = (stderr w1 ++ [diagnostic u (unknown_source_error u)])%list
      /\ collect limit a1 post w1' = (Ok a2, w2)
      /\ aggregate_markets (pre ++ u :: post) limit min_liquidity top_n w
         = (Ok (truncate top_n (rank (filter_liquidity min_liquidity a2))), w2).
Proof.
  intros H limit min_liquidity top_n pre post u w K.
  destruct (collect_returns limit pre [] w) as (a1 & w1 & E1).
  destruct (collect_returns limit post a1
              (logged (diagnostic u (unknown_source_error u)) w1))
    as (a2 & w2 & E2).
  assert (collect_source limit a1 u w1
          = (Ok a1, logged (diagnostic u (unknown_source_error u)) w1)) as T.
  { rewrite collect_source_run, (fetch_source_unknown _ _ _ K). reflexivity. }
  exists a1, a2, w1, w2. cbv zeta.
  repeat split; auto.
  apply aggregate_markets_run.
  rewrite (collect_app _ _ _ _ _ _ _ E1), collect_cons, T. exact E2.
Qed.

Lemma C1_unknown_source_witness :
  known_source "kalshi" = false
  /\ exists (a1 a2 : list Market) (w1 w2 : world),
       let w1' := logged (diagnostic "kalshi" (unknown_source_error "kalshi")) w1 in
       @collect ranking_host 200 [] ["manifold"] empty_world = (Ok a1, w1)
       /\ @collect_source ranking_host 200 a1 "kalshi" w1 = (Ok a1, w1')
       /\ requests w1' = requests w1
       /\ stderr w1'
          = (stderr w1 ++ [diagnostic "kalshi" (unknown_source_error "kalshi")])%list
       /\ @collect ranking_host 200 a1 ["polymarket"] w1' = (Ok a2, w2)
       /\ @aggregate_markets ranking_host (["manifold"] ++ "kalshi" :: ["polymarket"])
            200 None None empty_world
          = (Ok (truncate None (@rank ranking_host (filter_liquidity None a2))), w2).
Proof.
  split; [ reflexivity | ].
  apply (C1_unknown_source_is_logged_and_skipped ranking_host 200 None None
           ["manifold"] ["polymarket"] "kalshi" empty_world).
  reflexivity.
Defined.

(** C8: when the fetch of one source raises, the aggregator catches the
    exception and writes exactly one line, which names the source, to the
    error channel; the source adds no market, the loop goes on with the
    sources that follow, and the markets of all the other sources are what
    is filtered, ranked and truncated: without a threshold and a limit each
    of them is in the result. *)
Theorem C8_failed_source_is_logged_and_skipped :
  forall (H : Host) (limit : Z) (pre post : list string) (src : string)
         (w w1 w1' : world) (a1 : list Market) (e : exn),
    collect limit [] pre w = (Ok a1, w1) ->
    fetch_source limit src w1 = (Raise e, w1') ->
    exists (rest : list Market) (w2 : world),
      collect_source limit a1 src w1 = (Ok a1, logged (diagnostic src e) w1')
      /\ stderr (logged (diagnostic src e) w1')
         = (stderr w1
            ++ [("[prediction_aggregator] source " ++ src ++ " failed: "
                 ++ exn_text e ++ nl)%string])%list
      /\ collect limit [] post (logged (diagnostic src e) w1') = (Ok rest, w2)
      /\ collect limit [] (pre ++ src :: post) w = (Ok (a1 ++ rest)%list, w2)
      /\ (forall min_liquidity top_n,
             aggregate_markets (pre ++ src :: post) limit min_liquidity top_n w
             = (Ok (truncate top_n
                      (rank (filter_liquidity min_liquidity (a1 ++ rest)%list))),
                w2))
      /\ (exists result,
             aggregate_markets (pre ++ src :: post) limit None None w = (Ok result, w2)
             /\ forall m, In m (a1 ++ rest)%list -> In m result).
Proof.
  intros H limit pre post src w w1 w1' a1 e E1 F.
  destruct (collect_returns limit post a1 (logged (diagnostic src e) w1'))
    as (a2 & w2 & E2).
  destruct (collect_from _ _ _ _ _ _ E2) as (rest & -> & E2').
  assert (collect_source limit a1 src w1 = (Ok a1, logged (diagnostic src e) w1')) as T.
  { rewrite collect_source_run, F. reflexivity. }
  assert (collect limit [] (pre ++ src :: post) w = (Ok (a1 ++ rest)%list, w2)) as C.
  { rewrite (collect_app _ _ _ _ _ _ _ E1), collect_cons, T. exact E2. }
  exists rest, w2. split; [ exact T | split; [ | split; [ exact E2' | split; [ exact C | split ] ] ] ].
  - pose proof (fetch_source_channels limit src w1) as Ch. rewrite F in Ch.
    simpl in Ch. destruct Ch as (Ch & _). simpl. now rewrite Ch.
  - intros min_liquidity top_n. now apply aggregate_markets_run.
  - exists (rank (a1 ++ rest)%list). split.
    + now rewrite (aggregate_markets_run _ _ None None _ _ _ C).
    + intros m I. eapply Permutation_in; [ symmetry; apply rank_perm | exact I ].
Qed.

Lemma C8_failed_source_witness :
  exists (rest : list Market) (w2 : world) (result : list Market),
    @aggregate_markets timeout_host ([] ++ "manifold" :: ["polymarket"]) 200 None None
      empty_world = (Ok result, w2)
    /\ map id rest = [JStr "c1"]
    /\ (forall m, In m ([] ++ rest)%list -> In m result)
    /\ stderr w2
       = ["[prediction_aggregator] source manifold failed: <urlopen error timed out>"
          ++ nl].
Proof.
  destruct (C8_failed_source_is_logged_and_skipped timeout_host 200 []
              ["polymarket"] "manifold" empty_world empty_world
              (World [] [] [manifold_url 200] []) []
              (Exn OSError "<urlopen error timed out>") eq_refl eq_refl)
    as (rest & w2 & _ & _ & E & _ & _ & (result & R & I)).
  exists rest, w2, result.
  split; [ exact R | ].
  vm_compute in E. injection E as <- <-.
  split; [ reflexivity | split; [ exact I | reflexivity ] ].
Defined.

(** ** The calendar *)

Lemma is_digit_digit (d : Z) : 0 <= d <= 9 -> is_digit (digit d) = true.
Proof.
  intros B. unfold is_digit, digit.
  rewrite N_ascii_embedding by lia.
  apply andb_true_iff. split; apply N.leb_le; lia.
Qed.

Lemma canonical_format (y mo d h mi s : Z) :
  1000 <= y <= 9999 -> 0 <= mo <= 99 -> 0 <= d <= 99 ->
  0 <= h <= 99 -> 0 <= mi <= 99 -> 0 <= s <= 99 ->
  canonical (year_text y ++ "-" ++ pad2 mo ++ "-" ++ pad2 d ++ "T"
             ++ pad2 h ++ ":" ++ pad2 mi ++ ":" ++ pad2 s ++ "Z") = true.
Proof.
  intros By Bmo Bd Bh Bmi Bs. unfold year_text.
  destruct (Z.ltb_spec y 1000) as [L | _]; [ lia | ].
  unfold canonical, pad4, pad2. simpl.
  rewrite !is_digit_digit by (Z.div_mod_to_equations; lia).
  reflexivity.
Qed.

Lemma month_day_checked :
  forallb (fun n => valid_month_day (month_day (Z.of_nat n) true)
                    && valid_month_day (month_day (Z.of_nat n) false))
    (seq 0 365) = true.
Proof. vm_compute. reflexivity. Qed.

Lemma month_day_valid (n : Z) (leapyear : bool) :
  0 <= n <= 364 -> valid_month_day (month_day n leapyear) = true.
Proof.
  intros B.
  pose proof (proj1 (forallb_forall _ _) month_day_checked (Z.to_nat n)) as C.
  cbv beta in C. rewrite Z2Nat.id in C by lia.
  assert (In (Z.to_nat n) (seq 0 365)) as I by (apply in_seq; lia).
  apply C in I. apply andb_true_iff in I. destruct leapyear; tauto.
Qed.

Lemma ord2ymd_month_day (n : Z) :
  ord2ymd n =
  let n0 := n - 1 in
  let n400 := n0 / DI400Y in
  let r1 := n0 mod DI400Y in
  let n100 := r1 / DI100Y in
  let r2 := r1 mod DI100Y in
  let n4 := r2 / DI4Y in
  let r3 := r2 mod DI4Y in
  let n1 := r3 / 365 in
  let year := n400 * 400 + 1 + n100 * 100 + n4 * 4 + n1 in
  if (n1 =? 4) || (n100 =? 4) then (year - 1, 12, 31)
  else
    let md := month_day (r3 mod 365)
                ((n1 =? 3) && (negb (n4 =? 24) || (n100 =? 3))) in
    (year, fst md, snd md).
Proof.
  unfold ord2ymd, month_day. cbv zeta.
  destruct ((_ =? 4) || (_ =? 4)); [ reflexivity | ].
  destruct (_ <? _); reflexivity.
Qed.

(** The ordinals of 0001-01-01 to 9999-12-31 are dates of the years 1 to
    9999. *)
Lemma ord2ymd_range (n : Z) :
  1 <= n <= 3652059 ->
  let '(y, m, d) := ord2ymd n in
  1 <= y <= 9999 /\ 1 <= m <= 12 /\ 1 <= d <= 31.
Proof.
  intros B. rewrite ord2ymd_month_day. cbv zeta.
  unfold DI400Y, DI100Y, DI4Y.
  set (n0 := n - 1).
  set (n400 := n0 / 146097). set (r1 := n0 mod 146097).
  set (n100 := r1 / 36524). set (r2 := r1 mod 36524).
  set (n4 := r2 / 1461). set (r3 := r2 mod 1461).
  set (n1 := r3 / 365).
  assert (0 <= n400 <= 24 /\ 0 <= r1 < 146097 /\ n0 = 146097 * n400 + r1) as (B400 & Br1 & E1)
    by (unfold n400, r1; Z.div_mod_to_equations; lia).
  assert (0 <= n100 <= 4 /\ 0 <= r2 < 36524 /\ r1 = 36524 * n100 + r2) as (B100 & Br2 & E2)
    by (unfold n100, r2; Z.div_mod_to_equations; lia).
  assert (0 <= n4 <= 24 /\ 0 <= r3 < 1461 /\ r2 = 1461 * n4 + r3) as (B4 & Br3 & E3)
    by (unfold n4, r3; Z.div_mod_to_equations; lia).
  assert (0 <= n1 <= 4 /\ 0 <= r3 mod 365 <= 364 /\ r3 = 365 * n1 + r3 mod 365)
    as (B1 & Br4 & E4)
    by (unfold n1; Z.div_mod_to_equations; lia).
  destruct ((n1 =? 4) || (n100 =? 4)) eqn:S.
  - apply orb_true_iff in S. destruct S as [S | S]; apply Z.eqb_eq in S; lia.
  - apply orb_false_iff in S. destruct S as [S1 S2].
    apply Z.eqb_neq in S1, S2.
    pose proof (month_day_valid (r3 mod 365)
                  ((n1 =? 3) && (negb (n4 =? 24) || (n100 =? 3))) Br4) as V.
    unfold valid_month_day in V.
    repeat (apply andb_true_iff in V; destruct V as [V ?]).
    repeat split; try (apply Z.leb_le; assumption); lia.
Qed.

(** The ordinals from 1000-01-01 on are dates of the years from 1000 on. *)
Lemma ord2ymd_from_1000 (n : Z) :
  364878 <= n <= 3652059 ->
  let '(y, _, _) := ord2ymd n in 1000 <= y.
Proof.
  intros B. rewrite ord2ymd_month_day. cbv zeta.
  unfold DI400Y, DI100Y, DI4Y.
  set (n0 := n - 1).
  set (n400 := n0 / 146097). set (r1 := n0 mod 146097).
  set (n100 := r1 / 36524). set (r2 := r1 mod 36524).
  set (n4 := r2 / 1461). set (r3 := r2 mod 1461).
  set (n1 := r3 / 365).
  assert (0 <= r1 < 146097 /\ n0 = 146097 * n400 + r1) as (Br1 & E1)
    by (unfold n400, r1; Z.div_mod_to_equations; lia).
  assert (0 <= n100 <= 4 /\ 0 <= r2 < 36524 /\ r1 = 36524 * n100 + r2) as (B100 & Br2 & E2)
    by (unfold n100, r2; Z.div_mod_to_equations; lia).
  assert (0 <= n4 <= 24 /\ 0 <= r3 < 1461 /\ r2 = 1461 * n4 + r3) as (B4 & Br3 & E3)
    by (unfold n4, r3; Z.div_mod_to_equations; lia).
  assert (0 <= n1 <= 4 /\ 0 <= r3 mod 365 <= 364 /\ r3 = 365 * n1 + r3 mod 365)
    as (B1 & Br4 & E4)
    by (unfold n1; Z.div_mod_to_equations; lia).
  assert (n0 = n - 1) as E0 by reflexivity.
  clearbody n0 n400 r1 n100 r2 n4 r3 n1.
  destruct ((n1 =? 4) || (n100 =? 4)) eqn:S.
  - apply orb_true_iff in S. destruct S as [S | S]; apply Z.eqb_eq in S; lia.
  - cbv beta iota zeta. lia.
Qed.

Lemma gmtime_from_1000 (s : Z) :
  in_datetime_range s = true -> YEAR_1000 <= s -> 1000 <= tm_year (gmtime s).
Proof.
  unfold in_datetime_range, MIN_WALL, MAX_WALL, YEAR_1000, gmtime, EPOCH_ORDINAL.
  intros R Y. apply andb_true_iff in R. destruct R as [R1 R2].
  apply Z.leb_le in R1, R2.
  assert (364878 <= s / 86400 + 719163 <= 3652059) as B
    by (Z.div_mod_to_equations; lia).
  pose proof (ord2ymd_from_1000 _ B) as O.
  destruct (ord2ymd (s / 86400 + 719163)) as [[y m] d]. exact O.
Qed.

Lemma gmtime_range (s : Z) :
  in_datetime_range s = true ->
  let t := gmtime s in
  1 <= tm_year t <= 9999 /\ 1 <= tm_mon t <= 12 /\ 1 <= tm_mday t <= 31
  /\ 0 <= tm_hour t <= 23 /\ 0 <= tm_min t <= 59 /\ 0 <= tm_sec t <= 59.
Proof.
  unfold in_datetime_range, MIN_WALL, MAX_WALL, gmtime, EPOCH_ORDINAL.
  intros R. apply andb_true_iff in R. destruct R as [R1 R2].
  apply Z.leb_le in R1, R2.
  assert (1 <= s / 86400 + 719163 <= 3652059) as B
    by (Z.div_mod_to_equations; lia).
  pose proof (ord2ymd_range _ B) as O.
  destruct (ord2ymd (s / 86400 + 719163)) as [[y m] d]. simpl.
  repeat split; try tauto; Z.div_mod_to_equations; lia.
Qed.

Lemma strftime_canonical (dt : datetime) :
  in_datetime_range (dt_wall dt) = true ->
  YEAR_1000 <= dt_wall dt ->
  canonical (strftime_ISO8601 dt) = true.
Proof.
  intros R Y. pose proof (gmtime_range _ R) as G. cbv zeta in G.
  pose proof (gmtime_from_1000 _ R Y) as G1.
  unfold strftime_ISO8601. apply canonical_format; lia.
Qed.

Lemma strftime_utc_text (dt : datetime) :
  in_datetime_range (dt_wall dt) = true -> utc_text (strftime_ISO8601 dt).
Proof.
  intros R. exists dt. split; [ reflexivity | split; [ exact R | ] ].
  now apply strftime_canonical.
Qed.

(** ** The timestamp normalizer *)

Lemma fromtimestamp_utc_ok (t : float) (dt : datetime) :
  fromtimestamp_utc t = Ok dt ->
  in_datetime_range (dt_wall dt) = true /\ dt_offset dt = Some 0.
Proof.
  unfold fromtimestamp_utc.
  destruct (PrimFloat.is_nan t); [ discriminate | ].
  destruct (PrimFloat.is_infinity t); [ discriminate | ].
  destruct (if 1000000 <=? _ then _ else _) as [sec us].
  destruct (negb _); [ discriminate | ].
  destruct (in_datetime_range sec) eqn:R; [ | discriminate ].
  simpl. intros E. injection E as <-. auto.
Qed.

Lemma astimezone_utc_ok `{Host} (dt u : datetime) :
  astimezone_utc dt = Ok u -> in_datetime_range (dt_wall u) = true.
Proof.
  unfold astimezone_utc, rbind.
  destruct (match dt_offset dt with Some o => Ok o | None => _ end) as [off | e];
    [ | discriminate ].
  destruct (in_datetime_range (dt_wall dt - off)) eqn:R; [ | discriminate ].
  intros E. injection E as <-. exact R.
Qed.

Lemma epoch_millis_ok `{Host} (v : json) (dt : datetime) :
  epoch_millis v = Ok dt ->
  in_datetime_range (dt_wall dt) = true /\ dt_offset dt = Some 0.
Proof.
  unfold epoch_millis, rbind. destruct (py_float v); [ | discriminate ].
  apply fromtimestamp_utc_ok.
Qed.

(** What [_to_iso] returns for a string and for any other value. *)
Lemma to_iso_str `{Host} (s : string) :
  s <> "" ->
  _to_iso (JStr s) =
  match rbind (fromisoformat (replace_Z s)) astimezone_utc with
  | Ok u => Ok (Some (strftime_ISO8601 u))
  | Raise _ => Ok None
  end.
Proof.
  intros N. unfold _to_iso, is_none_or_empty.
  destruct (String.eqb_spec s ""); [ contradiction | ].
  unfold rtry, rbind. destruct (fromisoformat (replace_Z s)); auto.
  destruct (astimezone_utc a); auto.
Qed.

Lemma to_iso_number `{Host} (v : json) :
  is_number v = true ->
  _to_iso v =
  match epoch_millis v with
  | Ok dt => Ok (Some (strftime_ISO8601 dt))
  | Raise _ => Ok None
  end.
Proof.
  unfold _to_iso, epoch_millis, rtry, rbind.
  destruct v; try discriminate; intros _; simpl;
    match goal with
    | |- context [fromtimestamp_utc ?t] => destruct (fromtimestamp_utc t); auto
    | _ => idtac
    end.
  destruct (float_of_int z); auto. destruct (fromtimestamp_utc _); auto.
Qed.

(** What [_to_iso] returns is [None] or the text of an instant of the years
    1 to 9999. *)
Lemma to_iso_utc_text `{Host} (v : json) (o : option string) :
  _to_iso v = Ok o -> none_or_utc_text o.
Proof.
  intros E. destruct (is_number v) eqn:N.
  - rewrite (to_iso_number v N) in E.
    destruct (epoch_millis v) as [dt | e] eqn:M; injection E as <-; simpl; auto.
    apply epoch_millis_ok in M. now apply strftime_utc_text.
  - destruct v as [ | b | z | f | s | l | kv ]; try discriminate;
      try (injection E as <-; exact I).
    destruct (String.eqb_spec s "") as [-> | Ne]; [ injection E as <-; exact I | ].
    rewrite (to_iso_str s Ne) in E.
    destruct (rbind _ _) as [u | e] eqn:M; injection E as <-; simpl; auto.
    unfold rbind in M. destruct (fromisoformat _); [ | discriminate ].
    apply astimezone_utc_ok in M. now apply strftime_utc_text.
Qed.

(** C3: an instant before the year 1000 comes back as text that is neither
    null nor of the canonical pattern.  The last second of the year 999,
    given in milliseconds, gives [999-12-31T23:59:59Z], whose year has three
    digits. *)
Theorem C3_year_999_is_not_canonical :
  forall H : Host,
    _to_iso (JInt (-30610224001000)) = Ok (Some "999-12-31T23:59:59Z")
    /\ canonical "999-12-31T23:59:59Z" = false.
Proof. intros H. split; vm_compute; reflexivity. Qed.

(** C7: the first instant a [datetime] can hold, 0001-01-01T00:00:00 UTC, is
    a valid instant, and its milliseconds since the epoch come back as
    [1-01-01T00:00:00Z], whose year has one digit: the text is not of the
    canonical pattern. *)
Theorem C7_first_instant_is_not_canonical :
  forall H : Host,
    is_number (JInt (-62135596800000)) = true
    /\ epoch_millis (JInt (-62135596800000)) = Ok (Datetime MIN_WALL 0 (Some 0))
    /\ _to_iso (JInt (-62135596800000)) = Ok (Some "1-01-01T00:00:00Z")
    /\ canonical "1-01-01T00:00:00Z" = false.
Proof. intros H. repeat split; vm_compute; reflexivity. Qed.

(** Strings, on the sample host: a trailing [Z] reads as UTC, an offset is
    taken off, and text that is no ISO timestamp gives [None]. *)
Example to_iso_strings :
  @_to_iso ranking_host (JStr "2024-01-01T12:00:00Z") = Ok (Some "2024-01-01T12:00:00Z")
  /\ @_to_iso ranking_host (JStr "2024-05-01T12:00:00+02:00")
     = Ok (Some "2024-05-01T10:00:00Z")
  /\ @_to_iso ranking_host (JStr "0001-01-01T00:00:00+02:00") = Ok None
  /\ @_to_iso ranking_host (JStr "next tuesday") = Ok None.
Proof. repeat split; vm_compute; reflexivity. Qed.

(** ** The Polymarket adapter *)

Lemma rmap_cons_ok {A B} (f : A -> result B) (a : A) (l : list A) (bs : list B) :
  rmap f (a :: l) = Ok bs ->
  exists b bs', f a = Ok b /\ rmap f l = Ok bs' /\ bs = b :: bs'.
Proof.
  simpl. unfold rbind. destruct (f a) as [b | e]; [ | discriminate ].
  destruct (rmap f l) as [bs' | e]; [ | discriminate ].
  intros E. injection E as <-. eauto.
Qed.

Lemma rmap_length {A B} (f : A -> result B) (l : list A) :
  forall bs, rmap f l = Ok bs -> List.length bs = List.length l.
Proof.
  induction l as [|a l IH]; intros bs E.
  - injection E as <-. reflexivity.
  - apply rmap_cons_ok in E. destruct E as (b & bs' & _ & E & ->).
    simpl. f_equal. auto.
Qed.

Section ChooseBest.
Context {H : Host}.

(** The loop keeps what it holds when no volume is above [best_volume]. *)
Lemma choose_best_keep (ms : list json) :
  forall (vols : list float) (best_market : json) (best_volume : float),
    rmap market_volume ms = Ok vols ->
    (forall j v', nth_error vols j = Some v' -> PrimFloat.ltb best_volume v' = false) ->
    choose_best ms best_market best_volume = Ok best_market.
Proof.
  induction ms as [|m ms IH]; intros vols best_market best_volume V B; auto.
  apply rmap_cons_ok in V. destruct V as (v & vols' & Vm & V & ->).
  simpl. rewrite Vm. simpl. rewrite (B 0%nat v eq_refl).
  apply (IH vols'); auto. intros j v' N. apply (B (S j)). exact N.
Qed.

(** The loop ends on the first market of the highest volume when that
    volume is above the one it starts from. *)
Lemma choose_best_pick (ms : list json) :
  forall (vols : list float) (i : nat) (m : json) (v : float)
         (best_market : json) (best_volume : float),
    rmap market_volume ms = Ok vols ->
    nth_error ms i = Some m ->
    first_highest vols i v ->
    PrimFloat.ltb best_volume v = true ->
    choose_best ms best_market best_volume = Ok m.
Proof.
  induction ms as [|m0 ms IH];
    intros vols i m v best_market best_volume V N (Nv & Top & Before) Above.
  - destruct i; discriminate.
  - apply rmap_cons_ok in V. destruct V as (v0 & vols' & Vm & V & ->).
    simpl. rewrite Vm. simpl. destruct i as [|i].
    + injection N as <-. injection Nv as <-. rewrite Above.
      apply (choose_best_keep ms vols'); auto.
      intros j v' N'. apply (Top (S j)). exact N'.
    + assert (first_highest vols' i v) as F.
      { split; [ exact Nv | split ].
        - intros j v' N'. apply (Top (S j)). exact N'.
        - intros j v' L N'. apply (Before (S j)); [ lia | exact N' ]. }
      destruct (PrimFloat.ltb best_volume v0).
      * apply (IH vols' i m v); auto. apply (Before 0%nat); [ lia | reflexivity ].
      * apply (IH vols' i m v); auto.
Qed.

End ChooseBest.

(** C6: of the two markets of the event, of volumes -5 and -2, the second
    has the highest volume, and the adapter chooses neither: it looks for a
    volume above -1.0, finds none and produces no [Market] for the event.
    Nor does it produce one for an event whose only market is an empty
    object, which [not best_market] takes for no market. *)
Theorem C6_highest_volume_below_minus_one_is_not_chosen :
  forall H : Host,
    (exists d ms,
        negative_volumes = JObj d
        /\ py_iter (event_markets d) = Ok ms
        /\ rmap market_volume ms = Ok [(-5)%float; (-2)%float])
    /\ polymarket_event negative_volumes = Ok None
    /\ polymarket_event (polymarket_record "e" [JObj []]) = Ok None.
Proof.
  intros H. split; [ | split ].
  - eexists _, _. repeat split; reflexivity.
  - vm_compute. reflexivity.
  - vm_compute. reflexivity.
Qed.

(** ** The emitter *)

Section Emitter.
Context {H : Host}.

Lemma collect_files (limit : Z) (sources : list string) :
  forall acc w,
    files (snd (collect limit acc sources w)) = files w
    /\ stdout (snd (collect limit acc sources w)) = stdout w.
Proof.
  induction sources as [|src rest IH]; intros acc w; [ simpl; auto | ].
  rewrite collect_cons, collect_source_run.
  pose proof (fetch_source_channels limit src w) as Ch. cbv zeta in Ch.
  destruct (fetch_source limit src w) as [[ms | e] w1]; simpl in Ch;
    destruct Ch as (_ & So & Fi).
  - destruct (IH (acc ++ ms)%list w1) as [F S]. rewrite F, S. auto.
  - destruct (IH acc (logged (diagnostic src e) w1)) as [F S].
    rewrite F, S. auto.
Qed.

(** What [main] does when the output is a file. *)
Lemma main_to_file (a : args) (w w1 : world) (ms : list Market) :
  arg_out a <> "-" ->
  aggregate_markets (arg_sources a) (arg_limit a) (arg_min_liquidity a)
    (Some (arg_top_n a)) w = (Ok ms, w1) ->
  main a w =
  match json_dumps (payload_of a ms) with
  | Raise e => (Raise e, w1)
  | Ok text =>
      match disk (arg_out a) with
      | NoFault => (Ok 0, with_file (arg_out a) text w1)
      | MkdirFails e | OpenFails e => (Raise e, w1)
      | WriteFails n e => (Raise e, with_file (arg_out a) (substring 0 n text) w1)
      end
  end.
Proof.
  intros N A. unfold main, bind, try_except, lift, ret. rewrite A.
  fold (payload_of a ms).
  destruct (json_dumps (payload_of a ms)) as [text | e]; [ | reflexivity ].
  destruct (String.eqb_spec (arg_out a) "-") as [E | _]; [ contradiction | ].
  unfold write_text, with_file. destruct (disk (arg_out a)); reflexivity.
Qed.

End Emitter.

(** C9, as the specification states it, fails: the disk fills up while the snapshot
    is written over the file of an earlier run; [main] ends with the error
    and the output path holds the first twelve bytes of the new text. *)
Lemma C9_truncated_file_counterexample :
  exists (e : exn) (w' : world) (text : string),
    @main full_disk_host to_file earlier_run = (Raise e, w')
    /\ read_file "out/predictions.json" (files earlier_run)
       = Some "{previous snapshot}"
    /\ @json_dumps full_disk_host
         (@payload_of full_disk_host to_file
            (match @aggregate_markets full_disk_host ["manifold"] 200 None (Some 100)
                     earlier_run with
             | (Ok ms, _) => ms
             | (Raise _, _) => []
             end)) = Ok text
    /\ String.length text = 52%nat
    /\ read_file "out/predictions.json" (files w')
       = Some (substring 0 12 text)
    /\ String.length (substring 0 12 text) = 12%nat.
Proof.
  eexists _, _, _. vm_compute. repeat split; reflexivity.
Qed.

(** C9, amended: the snapshot is serialized in full before the destination
    is touched.  If serialization fails, or the parent directories cannot be
    made, or the file cannot be opened, [main] ends with that error and the
    files are what they were before the run; if nothing fails the output
    path holds the whole text; an error after the file was opened leaves at
    the output path the part of the text written until then. *)
Theorem C9_serialization_precedes_the_write :
  forall (H : Host) (a : args) (w : world),
    arg_out a <> "-" ->
    exists (ms : list Market) (w1 : world),
      aggregate_markets (arg_sources a) (arg_limit a) (arg_min_liquidity a)
        (Some (arg_top_n a)) w = (Ok ms, w1)
      /\ files w1 = files w
      /\ match json_dumps (payload_of a ms) with
         | Raise e => main a w = (Raise e, w1)
         | Ok text =>
             match disk (arg_out a) with
             | NoFault =>
                 main a w = (Ok 0, with_file (arg_out a) text w1)
                 /\ read_file (arg_out a) (files (with_file (arg_out a) text w1))
                    = Some text
             | MkdirFails e | OpenFails e => main a w = (Raise e, w1)
             | WriteFails n e =>
                 main a w = (Raise e, with_file (arg_out a) (substring 0 n text) w1)
             end
         end.
Proof.
  intros H a w N.
  destruct (collect_returns (arg_limit a) (arg_sources a) [] w) as (all & w1 & C).
  pose proof (aggregate_markets_run (arg_sources a) (arg_limit a)
                (arg_min_liquidity a) (Some (arg_top_n a)) w all w1 C) as A.
  eexists _, w1. split; [ exact A | split ].
  - pose proof (collect_files (arg_limit a) (arg_sources a) [] w) as [F _].
    rewrite C in F. exact F.
  - rewrite (main_to_file a w w1 _ N A).
    destruct (json_dumps _) as [text | e]; [ | reflexivity ].
    destruct (disk (arg_out a)); try reflexivity.
    split; [ reflexivity | ]. simpl. now rewrite String.eqb_refl.
Qed.

Lemma C9_serialization_witness :
  arg_out to_file <> "-"
  /\ exists (ms : list Market) (w1 : world),
       @aggregate_markets full_disk_host (arg_sources to_file) (arg_limit to_file)
         (arg_min_liquidity to_file) (Some (arg_top_n to_file)) earlier_run
       = (Ok ms, w1)
       /\ files w1 = files earlier_run
       /\ match @json_dumps full_disk_host (@payload_of full_disk_host to_file ms) with
          | Raise e => @main full_disk_host to_file earlier_run = (Raise e, w1)
          | Ok text =>
              match @disk full_disk_host (arg_out to_file) with
              | NoFault =>
                  @main full_disk_host to_file earlier_run
                  = (Ok 0, with_file (arg_out to_file) text w1)
                  /\ read_file (arg_out to_file)
                       (files (with_file (arg_out to_file) text w1))
                     = Some text
              | MkdirFails e | OpenFails e =>
                  @main full_disk_host to_file earlier_run = (Raise e, w1)
              | WriteFails n e =>
                  @main full_disk_host to_file earlier_run
                  = (Raise e, with_file (arg_out to_file) (substring 0 n text) w1)
              end
          end.
Proof.
  assert (arg_out to_file <> "-") as N by discriminate.
  split; [ exact N | ].
  apply (C9_serialization_precedes_the_write full_disk_host to_file earlier_run N).
Defined.

(** ** Records that lack fields *)

Section Records.
Context {H : Host}.

Lemma to_iso_returns (v : json) : exists r, _to_iso v = Ok r.
Proof.
  unfold _to_iso. destruct (is_none_or_empty v); [ eauto | ].
  unfold rtry. destruct v;
    match goal with
    | |- exists r, match ?x with Ok _ => _ | Raise _ => _ end = _ =>
        destruct x; eauto
    end.
Qed.

Lemma plain_number_float (v : json) :
  plain_number v = true -> exists f, py_float v = Ok f.
Proof.
  destruct v; try discriminate; simpl; eauto.
  unfold float_of_int. intros N. apply negb_true_iff in N. rewrite N. eauto.
Qed.

Lemma number_or_none_float (v : json) :
  number_or_none v = true -> exists o, optional_float v = Ok o.
Proof.
  intros N. destruct v; try discriminate; try (exists None; reflexivity);
    destruct (plain_number_float _ N) as (x & E);
    exists (Some x); unfold optional_float, rbind; now rewrite E.
Qed.

Lemma text_or_none_lower (v : json) :
  text_or_none v = true -> exists s, lower (py_or v (JStr "")) = Ok s.
Proof.
  destruct v; try discriminate; intros _; unfold py_or; simpl; eauto.
  destruct (negb (String.eqb s "")); simpl; eauto.
Qed.

Lemma manifold_market_converts (r : json) :
  manifold_well_typed r = true -> exists m, manifold_market r = Ok m.
Proof.
  destruct r as [ | | | | | | d]; try discriminate. simpl.
  intros W. apply andb_true_iff in W. destruct W as [W We].
  apply andb_true_iff in W. destruct W as [Wo Wv].
  destruct (text_or_none_lower _ Wo) as (o & Eo).
  destruct (number_or_none_float _ Wv) as (v & Ev).
  destruct (number_or_none_float _ We) as (l & El).
  destruct (to_iso_returns (get d "createdTime")) as (c & Ec).
  destruct (to_iso_returns (get d "closeTime")) as (c' & Ec').
  unfold manifold_market. simpl. rewrite Eo. simpl. rewrite Ev. simpl.
  rewrite El. simpl. rewrite Ec. simpl. rewrite Ec'. simpl. eauto.
Qed.

Lemma rmap_converts {A B} (f : A -> result B) (ok : A -> bool) (l : list A) :
  (forall a, ok a = true -> exists b, f a = Ok b) ->
  forallb ok l = true ->
  exists bs, rmap f l = Ok bs /\ Forall2 (fun a b => f a = Ok b) l bs.
Proof.
  intros C. induction l as [|a l IH]; simpl; intros W.
  - exists []. auto.
  - apply andb_true_iff in W. destruct W as [Wa Wl].
    destruct (C a Wa) as (b & Eb). destruct (IH Wl) as (bs & Ebs & F).
    exists (b :: bs). rewrite Eb. simpl. rewrite Ebs. simpl. auto.
Qed.

End Records.

Section Events.
Context {H : Host}.

Lemma market_volume_converts (m : json) :
  market_well_typed m = true -> exists v, market_volume m = Ok v.
Proof.
  destruct m as [ | | | | | | b]; try discriminate. simpl.
  intros W. apply andb_true_iff in W. destruct W as [W _].
  apply andb_true_iff in W. destruct W as [W _].
  unfold market_volume, get_default. simpl. unfold get in W.
  destruct (lookup "volume" b) as [v | ]; [ | simpl; eauto ].
  unfold py_or. destruct (truthy v) eqn:T; [ | simpl; eauto ].
  apply plain_number_float. destruct v; try discriminate; exact W.
Qed.

(** The inner loop ends, on what it held or on one of the markets. *)
Lemma choose_best_converts (ms : list json) :
  forallb market_well_typed ms = true ->
  forall best_market best_volume,
  exists x, choose_best ms best_market best_volume = Ok x
            /\ (x = best_market \/ In x ms).
Proof.
  induction ms as [|m ms IH]; simpl; intros W best_market best_volume.
  - eauto.
  - apply andb_true_iff in W. destruct W as [Wm Wms].
    destruct (market_volume_converts m Wm) as (v & Ev). rewrite Ev. simpl.
    destruct (PrimFloat.ltb best_volume v).
    + destruct (IH Wms m v) as (x & E & [-> | I]); eauto.
    + destruct (IH Wms best_market best_volume) as (x & E & [-> | I]); eauto.
Qed.

Lemma chosen_market_converts (d : list (string * json)) (q : json)
  (base_url : string) (best_market : json) :
  market_well_typed best_market = true ->
  exists m, chosen_market d q base_url best_market = Ok m.
Proof.
  destruct best_market as [ | | | | | | b]; try discriminate. simpl.
  intros W. apply andb_true_iff in W. destruct W as [W Wp].
  apply andb_true_iff in W. destruct W as [Wv Wl].
  destruct (number_or_none_float _ Wv) as (v & Ev).
  destruct (number_or_none_float _ Wl) as (l & El).
  destruct (to_iso_returns (py_or (get d "createdAt") (get d "created_at")))
    as (c & Ec).
  destruct (to_iso_returns (py_or (get d "endDate") (get d "end_date")))
    as (c' & Ec').
  unfold chosen_market. simpl.
  assert (exists p n,
             (if truthy (py_or (get b "prices") (JArr []))
              then rbind (first_item (py_or (get b "prices") (JArr [])))
                     (fun p => rbind (py_float p) (fun f => Ok (JFloat f)))
              else Ok JNull) = Ok p
             /\ py_len (py_or (get b "prices") (JArr [])) = Ok n) as (p & n & Ep & En).
  { destruct (get b "prices") as [ | | | | | [|x xs] | ]; try discriminate;
      unfold py_or; simpl; eauto.
    destruct (plain_number_float x Wp) as (f & Ef). rewrite Ef. simpl. eauto. }
  rewrite Ep. simpl. rewrite En. simpl. rewrite Ev. simpl. rewrite El. simpl.
  rewrite Ec. simpl. rewrite Ec'. simpl. eauto.
Qed.

Lemma polymarket_event_converts (e : json) :
  event_well_typed e = true -> exists o, polymarket_event e = Ok o.
Proof.
  destruct e as [ | | | | | | d]; try discriminate. simpl.
  intros W. apply andb_true_iff in W. destruct W as [W Wm].
  apply andb_true_iff in W. destruct W as [Ws Wi].
  assert (exists u, str_concat "https://polymarket.com/event/"
                      (py_or (get d "slug") (py_or (get d "id") (JStr ""))) = Ok u)
    as (u & Eu).
  { destruct (get d "slug") as [ | | | | s | | ]; try discriminate;
      destruct (get d "id") as [ | | | | i | | ]; try discriminate;
      unfold py_or; simpl;
      repeat match goal with
        | |- context [negb (String.eqb ?x "")] => destruct (negb (String.eqb x ""))
        end; simpl; eauto. }
  assert (exists ms, py_iter (py_or (get d "markets") (JArr [])) = Ok ms
                     /\ forallb market_well_typed ms = true) as (ms & Ei & Wms).
  { destruct (get d "markets") as [ | | | | | [|x xs] | ]; try discriminate;
      unfold py_or; simpl; eauto. }
  unfold polymarket_event. simpl. rewrite Eu. simpl. rewrite Ei. simpl.
  destruct (choose_best_converts ms Wms JNull (-1)%float) as (x & Ex & Hx).
  rewrite Ex. simpl. destruct (truthy x) eqn:T; simpl; [ | eauto ].
  destruct Hx as [-> | I]; [ discriminate | ].
  rewrite forallb_forall in Wms.
  destruct (chosen_market_converts d
              (py_or (get d "title") (py_or (get d "question") (JStr ""))) u x
              (Wms x I)) as (m & Em).
  rewrite Em. simpl. eauto.
Qed.

End Events.

Lemma rmap_raises {A B} (f : A -> result B) (pre post : list A) (bad : A) (e : exn) :
  forall bs, rmap f pre = Ok bs -> f bad = Raise e ->
             rmap f (pre ++ bad :: post) = Raise e.
Proof.
  induction pre as [|a pre IH]; intros bs P E; simpl.
  - now rewrite E.
  - apply rmap_cons_ok in P. destruct P as (b & bs' & Ea & P & _).
    rewrite Ea. simpl. now rewrite (IH bs' P E).
Qed.

(** C2: a record whose conversion raises is not skipped: the exception
    leaves the loop over the records and the adapter with it, so that none
    of the records of the response, those before and those after it
    included, becomes a [Market]; the aggregator logs the source as failed
    and gets nothing from it.  This holds for a Manifold record and for a
    Polymarket event alike. *)
Theorem C2_one_bad_record_fails_the_source :
  (forall (H : Host) (limit : Z) (w : world) (acc good : list Market)
          (pre post : list json) (bad : json) (e : exn),
      urlopen_json (List.length (requests w)) (manifold_url limit)
      = Ok (JArr (pre ++ bad :: post)) ->
      rmap manifold_market pre = Ok good ->
      manifold_market bad = Raise e ->
      fetch_manifold limit w = (Raise e, requested (manifold_url limit) w)
      /\ collect_source limit acc "manifold" w
         = (Ok acc, logged (diagnostic "manifold" e)
                      (requested (manifold_url limit) w)))
  /\ (forall (H : Host) (limit : Z) (w : world) (acc : list Market)
             (good : list (option Market)) (pre post : list json) (bad : json)
             (e : exn),
        urlopen_json (List.length (requests w)) (polymarket_url limit)
        = Ok (JArr (pre ++ bad :: post)) ->
        rmap polymarket_event pre = Ok good ->
        polymarket_event bad = Raise e ->
        fetch_polymarket limit w = (Raise e, requested (polymarket_url limit) w)
        /\ collect_source limit acc "polymarket" w
           = (Ok acc, logged (diagnostic "polymarket" e)
                        (requested (polymarket_url limit) w))).
Proof.
  split.
  - intros H limit w acc good pre post bad e N P E.
    assert (fetch_manifold limit w = (Raise e, requested (manifold_url limit) w)) as F.
    { unfold fetch_manifold, bind, urlopen, lift. rewrite N. simpl.
      now rewrite (rmap_raises _ pre post bad e good P E). }
    split; [ exact F | ].
    rewrite collect_source_run.
    change (fetch_source limit "manifold" w) with (fetch_manifold limit w).
    now rewrite F.
  - intros H limit w acc good pre post bad e N P E.
    assert (fetch_polymarket limit w
            = (Raise e, requested (polymarket_url limit) w)) as F.
    { unfold fetch_polymarket, bind, urlopen, lift. rewrite N. simpl.
      now rewrite (rmap_raises _ pre post bad e good P E). }
    split; [ exact F | ].
    rewrite collect_source_run.
    change (fetch_source limit "polymarket" w) with (fetch_polymarket limit w).
    now rewrite F.
Qed.

(** The first record of the batch has the text [n/a] for its volume: [float]
    raises, and the record after it, which is in order, is lost with it. *)
Lemma C2_one_bad_record_witness :
  @urlopen_json one_bad_record (List.length (requests empty_world)) (manifold_url 200)
  = Ok (JArr ([] ++ manifold_record "a" (JStr "n/a") JNull
                 :: [manifold_record "b" (JInt 10) JNull]))
  /\ @rmap _ _ (@manifold_market one_bad_record) [] = Ok []
  /\ @manifold_market one_bad_record (manifold_record "a" (JStr "n/a") JNull)
     = Raise (Exn ValueError "could not convert string to float: 'n/a'")
  /\ @fetch_manifold one_bad_record 200 empty_world
     = (Raise (Exn ValueError "could not convert string to float: 'n/a'"),
        requested (manifold_url 200) empty_world)
  /\ @collect_source one_bad_record 200 [] "manifold" empty_world
     = (Ok [],
        logged (diagnostic "manifold"
                  (Exn ValueError "could not convert string to float: 'n/a'"))
          (requested (manifold_url 200) empty_world)).
Proof.
  split; [ reflexivity | split; [ reflexivity | split; [ reflexivity | ] ] ].
  apply (proj1 C2_one_bad_record_fails_the_source one_bad_record 200 empty_world
           [] [] [] [manifold_record "b" (JInt 10) JNull]
           (manifold_record "a" (JStr "n/a") JNull)
           (Exn ValueError "could not convert string to float: 'n/a'")
           eq_refl eq_refl eq_refl).
Defined.

(** The run on that batch and on the like batch of the other adapter: each
    call raises the [ValueError] of [float], although the second record is
    in order, and the aggregator returns no market at all. *)
Example one_bad_record_run :
  (exists (e : exn) (w' : world),
      @fetch_manifold one_bad_record 200 empty_world = (Raise e, w')
      /\ e = Exn ValueError "could not convert string to float: 'n/a'")
  /\ (exists m, @manifold_market one_bad_record (manifold_record "b" (JInt 10) JNull)
                = Ok m)
  /\ (exists (e : exn) (w' : world),
         @fetch_polymarket one_bad_record 200 empty_world = (Raise e, w')
         /\ e = Exn ValueError "could not convert string to float: 'n/a'")
  /\ (exists w', @aggregate_markets one_bad_record ["manifold"; "polymarket"] 200
                   None None empty_world = (Ok [], w')).
Proof.
  repeat split; eexists; try eexists; vm_compute; try split; reflexivity.
Qed.

(** * Further properties of the script *)

(** ** The aggregator *)

Lemma slice_to_prefix {A} (n : Z) (l : list A) :
  exists rest, l = (slice_to n l ++ rest)%list.
Proof.
  unfold slice_to. destruct (0 <=? n); eexists; symmetry; apply firstn_skipn.
Qed.

Lemma truncate_prefix (top_n : option Z) (l : list Market) :
  exists rest, l = (truncate top_n l ++ rest)%list.
Proof.
  destruct top_n as [n | ]; simpl.
  - apply slice_to_prefix.
  - exists []. now rewrite app_nil_r.
Qed.

Lemma StronglySorted_prefix {A} (R : A -> A -> Prop) (l1 l2 : list A) :
  StronglySorted R (l1 ++ l2)%list -> StronglySorted R l1.
Proof.
  induction l1 as [|a l1 IH]; simpl; intros S.
  - constructor.
  - inversion S as [|? ? S' F]; subst. constructor; auto.
    apply Forall_app in F. tauto.
Qed.

Section Loop.
Context {H : Host}.

Lemma collect_requests (limit : Z) (sources : list string) :
  forall acc w,
    requests (snd (collect limit acc sources w))
    = (requests w ++ requested_urls limit sources)%list.
Proof.
  induction sources as [|src rest IH]; intros acc w.
  - simpl. now rewrite app_nil_r.
  - rewrite collect_cons, collect_source_run.
    pose proof (fetch_source_requests limit src w) as R.
    unfold requested_urls. simpl flat_map. fold (requested_urls limit rest).
    destruct (fetch_source limit src w) as [[ms | e] w1]; simpl in R;
      rewrite IH; simpl; rewrite R; unfold source_urls;
      destruct (String.eqb src "manifold");
      [ | destruct (String.eqb src "polymarket") | | destruct (String.eqb src "polymarket") ];
      simpl; rewrite <- ?app_assoc; reflexivity.
Qed.

Lemma collect_stderr (limit : Z) (sources : list string) :
  forall acc w,
  exists lines,
    stderr (snd (collect limit acc sources w)) = (stderr w ++ lines)%list
    /\ (List.length lines <= List.length sources)%nat
    /\ Forall (fun line => exists src e, In src sources /\ line = diagnostic src e)
         lines.
Proof.
  induction sources as [|src rest IH]; intros acc w.
  - exists []. simpl. rewrite app_nil_r. auto.
  - rewrite collect_cons, collect_source_run.
    pose proof (fetch_source_channels limit src w) as Ch. cbv zeta in Ch.
    destruct (fetch_source limit src w) as [[ms | e] w1]; simpl in Ch;
      destruct Ch as (Se & _ & _).
    + destruct (IH (acc ++ ms)%list w1) as (lines & E & L & F).
      exists lines. rewrite E, Se. split; [ reflexivity | split ].
      * simpl. lia.
      * eapply Forall_impl; [ | exact F ].
        intros line (s & x & I & ->). exists s, x. simpl. auto.
    + destruct (IH acc (logged (diagnostic src e) w1)) as (lines & E & L & F).
      exists (diagnostic src e :: lines). rewrite E. simpl. rewrite Se.
      rewrite <- app_assoc. split; [ reflexivity | split ].
      * simpl. lia.
      * constructor.
        -- exists src, e. simpl. auto.
        -- eapply Forall_impl; [ | exact F ].
           intros line (s & x & I & ->). exists s, x. simpl. auto.
Qed.

End Loop.

(** X1: asked for no source at all, the aggregator returns the empty list
    and leaves the world as it was: nothing is requested and nothing is
    written, whatever the limit, the threshold and [top_n]. *)
Theorem aggregate_no_sources :
  forall (H : Host) (limit : Z) (min_liquidity : option float) (top_n : option Z)
         (w : world),
    aggregate_markets [] limit min_liquidity top_n w = (Ok [], w).
Proof.
  intros H limit min_liquidity top_n w.
  rewrite (aggregate_markets_run [] limit min_liquidity top_n w [] w eq_refl).
  destruct min_liquidity, top_n as [n | ]; simpl; try reflexivity;
    unfold slice_to; destruct (0 <=? n); now rewrite firstn_nil.
Qed.

(** X2: with a [top_n] that is not negative the aggregator returns the first
    [top_n] markets of the filtered and ranked list, all of them when there
    are fewer: never more than [top_n] markets. *)
Theorem aggregate_top_n_prefix :
  forall (H : Host) (sources : list string) (limit : Z)
         (min_liquidity : option float) (top_n : Z) (w : world),
    0 <= top_n ->
    exists (all : list Market) (w' : world) (result : list Market),
      collect limit [] sources w = (Ok all, w')
      /\ aggregate_markets sources limit min_liquidity (Some top_n) w = (Ok result, w')
      /\ result = firstn (Z.to_nat top_n) (rank (filter_liquidity min_liquidity all))
      /\ List.length result
         = Nat.min (Z.to_nat top_n)
             (List.length (rank (filter_liquidity min_liquidity all)))
      /\ Z.of_nat (List.length result) <= top_n.
Proof.
  intros H sources limit min_liquidity top_n w N.
  destruct (collect_returns limit sources [] w) as (all & w' & E).
  exists all, w', (firstn (Z.to_nat top_n) (rank (filter_liquidity min_liquidity all))).
  rewrite (aggregate_markets_run _ _ _ _ _ _ _ E). simpl. unfold slice_to.
  destruct (0 <=? top_n) eqn:P; [ | apply Z.leb_gt in P; lia ].
  repeat split; auto.
  - apply length_firstn.
  - rewrite length_firstn. lia.
Qed.

Lemma aggregate_top_n_prefix_witness :
  0 <= 2
  /\ exists (all : list Market) (w' : world) (result : list Market),
       @collect ranking_host 200 [] ["manifold"; "polymarket"] empty_world = (Ok all, w')
       /\ @aggregate_markets ranking_host ["manifold"; "polymarket"] 200 None (Some 2)
            empty_world = (Ok result, w')
       /\ result = firstn (Z.to_nat 2) (@rank ranking_host (filter_liquidity None all))
       /\ List.length result
          = Nat.min (Z.to_nat 2)
              (List.length (@rank ranking_host (filter_liquidity None all)))
       /\ Z.of_nat (List.length result) <= 2.
Proof.
  split; [ lia | ].
  apply (aggregate_top_n_prefix ranking_host ["manifold"; "polymarket"] 200 None 2
           empty_world).
  lia.
Defined.

(** X3: the aggregator sends one request for each occurrence of [manifold]
    and of [polymarket] among the sources, in the order of the list, to the
    adapter's URL with the limit in the query; no request goes out for any
    other name, and none is sent twice for one occurrence. *)
Theorem aggregate_requests_one_per_known_source :
  forall (H : Host) (sources : list string) (limit : Z)
         (min_liquidity : option float) (top_n : option Z) (w : world),
    requests (snd (aggregate_markets sources limit min_liquidity top_n w))
    = (requests w ++ requested_urls limit sources)%list.
Proof.
  intros H sources limit min_liquidity top_n w.
  destruct (collect_returns limit sources [] w) as (all & w' & E).
  rewrite (aggregate_markets_run _ _ _ _ _ _ _ E). simpl.
  pose proof (collect_requests limit sources [] w) as R. now rewrite E in R.
Qed.

(** X4: the aggregator writes to the error channel only: the lines it adds
    are diagnostics of requested sources, at most one for each source of the
    list, after what the channel held; the standard output and the files
    are left as they were. *)
Theorem aggregate_writes_diagnostics_only :
  forall (H : Host) (sources : list string) (limit : Z)
         (min_liquidity : option float) (top_n : option Z) (w : world),
    let w' := snd (aggregate_markets sources limit min_liquidity top_n w) in
    (exists lines,
        stderr w' = (stderr w ++ lines)%list
        /\ (List.length lines <= List.length sources)%nat
        /\ Forall (fun line => exists src e,
                       In src sources /\ line = diagnostic src e) lines)
    /\ stdout w' = stdout w
    /\ files w' = files w.
Proof.
  intros H sources limit min_liquidity top_n w.
  destruct (collect_returns limit sources [] w) as (all & w1 & E).
  rewrite (aggregate_markets_run _ _ _ _ _ _ _ E). cbv zeta. simpl.
  pose proof (collect_stderr limit sources [] w) as S.
  pose proof (collect_files limit sources [] w) as [F O].
  rewrite E in S, F, O. simpl in *. auto.
Qed.

Lemma truncate_Forall (P : Market -> Prop) (top_n : option Z) (l : list Market) :
  Forall P l -> Forall P (truncate top_n l).
Proof.
  intros F. destruct (truncate_prefix top_n l) as (rest & E).
  rewrite E in F. apply Forall_app in F. tauto.
Qed.

(** X5: whatever [top_n] is, every market the aggregator returns under a
    threshold has a liquidity, [None] counting as 0.0, of at least the
    threshold, and is one of the markets collected from the sources. *)
Theorem aggregate_result_meets_threshold :
  forall (H : Host) (sources : list string) (limit : Z) (t : float)
         (top_n : option Z) (w : world),
    exists (all : list Market) (w' : world) (result : list Market),
      collect limit [] sources w = (Ok all, w')
      /\ aggregate_markets sources limit (Some t) top_n w = (Ok result, w')
      /\ Forall (fun m => PrimFloat.leb t (liquidity_key m) = true /\ In m all)
           result.
Proof.
  intros H sources limit t top_n w.
  destruct (collect_returns limit sources [] w) as (all & w' & E).
  exists all, w', (truncate top_n (rank (filter_liquidity (Some t) all))).
  split; [ exact E | split; [ now apply aggregate_markets_run | ] ].
  apply truncate_Forall.
  eapply Permutation_Forall; [ symmetry; apply rank_perm | ].
  apply Forall_forall. intros m I. simpl in I. apply filter_In in I. tauto.
Qed.

(** X6: when no collected market has a NaN volume, what the aggregator
    returns is in descending order of 24h volume whatever the threshold and
    whatever [top_n], negative values included. *)
Theorem aggregate_result_is_descending :
  forall (H : Host) (sources : list string) (limit : Z)
         (min_liquidity : option float) (top_n : option Z) (w w' : world)
         (all : list Market),
    collect limit [] sources w = (Ok all, w') ->
    Forall no_nan_volume all ->
    exists result : list Market,
      aggregate_markets sources limit min_liquidity top_n w = (Ok result, w')
      /\ by_volume_descending result.
Proof.
  intros H sources limit min_liquidity top_n w w' all E N.
  exists (truncate top_n (rank (filter_liquidity min_liquidity all))).
  split; [ now apply aggregate_markets_run | ].
  destruct (truncate_prefix top_n (rank (filter_liquidity min_liquidity all)))
    as (rest & P).
  apply (StronglySorted_prefix _ _ rest). unfold by_volume_descending in *.
  rewrite <- P. apply rank_descending.
  destruct min_liquidity as [t | ]; simpl; auto.
  apply Forall_forall. intros m I. apply filter_In in I.
  rewrite Forall_forall in N. apply N. tauto.
Qed.

Lemma aggregate_result_is_descending_witness :
  exists (all : list Market) (w' : world) (result : list Market),
    @collect ranking_host 200 [] ["manifold"; "polymarket"] empty_world = (Ok all, w')
    /\ Forall no_nan_volume all
    /\ @aggregate_markets ranking_host ["manifold"; "polymarket"] 200
         (Some 0%float) (Some (-1)) empty_world = (Ok result, w')
    /\ by_volume_descending result.
Proof.
  destruct (@collect ranking_host 200 [] ["manifold"; "polymarket"] empty_world)
    as [[all | e] w'] eqn:E; [ | vm_compute in E; discriminate ].
  assert (Forall no_nan_volume all) as N.
  { vm_compute in E. injection E as <- _. repeat constructor. }
  destruct (aggregate_result_is_descending ranking_host ["manifold"; "polymarket"]
              200 (Some 0%float) (Some (-1)) empty_world w' all E N)
    as (result & A & D).
  exists all, w', result. auto.
Defined.

(** X7: the markets of a list of sources that is the concatenation of two
    lists are the markets of the first list followed by those of the second,
    the second being fetched in the world the first left: sources are
    processed in order and nothing a source yields is merged away. *)
Theorem aggregate_concatenated_sources :
  forall (H : Host) (l1 l2 : list string) (limit : Z)
         (min_liquidity : option float) (top_n : option Z) (w : world),
    exists (a1 a2 : list Market) (w1 w2 : world),
      collect limit [] l1 w = (Ok a1, w1)
      /\ collect limit [] l2 w1 = (Ok a2, w2)
      /\ collect limit [] (l1 ++ l2) w = (Ok (a1 ++ a2)%list, w2)
      /\ aggregate_markets (l1 ++ l2) limit min_liquidity top_n w
         = (Ok (truncate top_n (rank (filter_liquidity min_liquidity (a1 ++ a2)%list))),
            w2).
Proof.
  intros H l1 l2 limit min_liquidity top_n w.
  destruct (collect_returns limit l1 [] w) as (a1 & w1 & E1).
  destruct (collect_returns limit l2 a1 w1) as (a & w2 & E2).
  destruct (collect_from _ _ _ _ _ _ E2) as (a2 & -> & E2').
  assert (collect limit [] (l1 ++ l2) w = (Ok (a1 ++ a2)%list, w2)) as C.
  { rewrite (collect_app _ _ _ _ _ _ _ E1). exact E2. }
  exists a1, a2, w1, w2. repeat split; auto.
  now apply aggregate_markets_run.
Qed.

(** ** Ranking, again *)

Section SortCompose.
Context {A K : Type} (lt : K -> K -> bool) (key : A -> K).
Variable ok : K -> Prop.
Hypothesis lt_negtrans :
  forall a b c, ok b -> lt a c = true -> lt a b = true \/ lt b c = true.
Hypothesis lt_asym : forall a b, lt a b = true -> lt b a = false.

(** A list in ascending order is left as it is. *)
Lemma stable_sort_sorted (l : list A) :
  ascending lt key l -> stable_sort lt key l = l.
Proof.
  unfold ascending. induction 1 as [|x l S IH F]; auto.
  simpl. rewrite IH. destruct l as [|y l']; auto.
  simpl. inversion F as [|? ? Fy _]; subst. now rewrite Fy.
Qed.

Lemma StronglySorted_unrev (R : A -> A -> Prop) (l : list A) :
  StronglySorted R l -> StronglySorted (fun a b => R b a) (rev l).
Proof. apply StronglySorted_rev. Qed.

Lemma list_sort_sorted (l : list A) :
  descending lt key l -> list_sort lt key true l = l.
Proof.
  intros D. unfold list_sort.
  rewrite stable_sort_sorted; [ apply rev_involutive | ].
  unfold ascending, descending in *.
  apply (StronglySorted_unrev (fun a b => lt (key a) (key b) = false)). exact D.
Qed.

(** Sorting what a test keeps is keeping what the test keeps of the sorted
    list. *)
Lemma insert_sorted_filter (p : A -> bool) (x : A) (l : list A) :
  Forall (fun a => ok (key a)) l ->
  ascending lt key l ->
  filter p (insert_sorted lt key x l)
  = if p x then insert_sorted lt key x (filter p l) else filter p l.
Proof.
  unfold ascending. intros O S. induction S as [|y l S IH F].
  - simpl. destruct (p x); reflexivity.
  - inversion O as [|? ? Oy Ol]; subst. specialize (IH Ol).
    simpl insert_sorted. destruct (lt (key y) (key x)) eqn:E.
    + simpl. rewrite IH. destruct (p y), (p x); simpl; rewrite ?E; reflexivity.
    + simpl. destruct (p x) eqn:Px; [ | reflexivity ].
      destruct (p y) eqn:Py.
      * simpl. now rewrite E.
      * assert (forall l', Forall (fun b => lt (key b) (key y) = false) l' ->
                           insert_sorted lt key x (filter p l') = x :: filter p l')
          as G.
        { clear IH S F Ol. induction l' as [|z l' IH']; simpl; intros Fz; auto.
          inversion Fz as [|? ? Hz Fl]; subst.
          destruct (p z); [ | auto ].
          simpl. destruct (lt (key z) (key x)) eqn:Ez; auto.
          destruct (lt_negtrans _ (key y) _ Oy Ez); congruence. }
        now rewrite G.
Qed.

Lemma stable_sort_filter (p : A -> bool) (l : list A) :
  Forall (fun a => ok (key a)) l ->
  stable_sort lt key (filter p l) = filter p (stable_sort lt key l).
Proof.
  induction 1 as [|x l Ox Ol IH]; auto.
  simpl stable_sort at 2. rewrite (insert_sorted_filter p x).
  - simpl. destruct (p x); simpl; now rewrite IH.
  - eapply Permutation_Forall; [ symmetry; apply stable_sort_perm | exact Ol ].
  - apply (stable_sort_ascending lt key ok); auto.
Qed.

Lemma list_sort_filter (p : A -> bool) (l : list A) :
  Forall (fun a => ok (key a)) l ->
  list_sort lt key true (filter p l) = filter p (list_sort lt key true l).
Proof.
  intros O. unfold list_sort.
  rewrite <- filter_reversed, stable_sort_filter, filter_reversed; auto.
  eapply Permutation_Forall; [ apply Permutation_rev | exact O ].
Qed.

End SortCompose.

(** X8: filtering by liquidity and ranking commute when no volume is NaN:
    what is returned under a threshold is the ranking of all the markets
    with the markets below the threshold struck out, so a threshold never
    changes the order of the markets it keeps. *)
Theorem rank_commutes_with_liquidity_filter :
  forall (H : Host) (min_liquidity : option float) (l : list Market),
    Forall no_nan_volume l ->
    rank (filter_liquidity min_liquidity l) = filter_liquidity min_liquidity (rank l).
Proof.
  intros H [t | ] l N; [ | reflexivity ].
  simpl. rewrite (rank_without_nan l N), rank_without_nan
    by (eapply incl_Forall; [ apply incl_filter | exact N ]).
  apply (list_sort_filter PrimFloat.ltb volume_key
           (fun k => PrimFloat.is_nan k = false)); auto.
  - intros a b c. apply ltb_negtrans.
  - apply ltb_asym.
Qed.

Lemma rank_commutes_with_liquidity_filter_witness :
  Forall no_nan_volume tied_markets
  /\ @rank ranking_host (filter_liquidity (Some 1%float) tied_markets)
     = filter_liquidity (Some 1%float) (@rank ranking_host tied_markets).
Proof.
  assert (Forall no_nan_volume tied_markets) as N by (repeat constructor).
  split; [ exact N | ].
  apply (rank_commutes_with_liquidity_filter ranking_host (Some 1%float)
           tied_markets N).
Defined.

(** X9: a list that is already in descending order of volume, without NaN,
    comes out of the ranking as it went in: the sort moves no market that
    is in place, ties included. *)
Theorem rank_leaves_ranked_list :
  forall (H : Host) (l : list Market),
    Forall no_nan_volume l -> by_volume_descending l -> rank l = l.
Proof.
  intros H l N D. rewrite (rank_without_nan l N).
  apply list_sort_sorted. unfold descending.
  eapply StronglySorted_weaken; [ | exact N | exact D ].
  intros a b Na Nb L. apply (proj1 (leb_code _ _ Nb Na)). exact L.
Qed.

Lemma rank_leaves_ranked_list_witness :
  Forall no_nan_volume (@rank ranking_host tied_markets)
  /\ by_volume_descending (@rank ranking_host tied_markets)
  /\ @rank ranking_host (@rank ranking_host tied_markets)
     = @rank ranking_host tied_markets.
Proof.
  assert (Forall no_nan_volume tied_markets) as N by (repeat constructor).
  assert (Forall no_nan_volume (@rank ranking_host tied_markets)) as N'.
  { eapply Permutation_Forall; [ symmetry; apply rank_perm | exact N ]. }
  pose proof (@rank_descending ranking_host tied_markets N) as D.
  split; [ exact N' | split; [ exact D | ] ].
  apply (rank_leaves_ranked_list ranking_host (@rank ranking_host tied_markets) N' D).
Defined.

(** ** The entry point, again *)

Section Main.
Context {H : Host}.

(** What [main] does when the output is the standard output. *)
Lemma main_to_stdout (a : args) (w w1 : world) (ms : list Market) :
  arg_out a = "-" ->
  aggregate_markets (arg_sources a) (arg_limit a) (arg_min_liquidity a)
    (Some (arg_top_n a)) w = (Ok ms, w1) ->
  main a w =
  match json_dumps (payload_of a ms) with
  | Raise e => (Raise e, w1)
  | Ok text =>
      match console (text ++ nl) with
      | None => (Ok 0, printed (text ++ nl) w1)
      | Some (O, e) => (Raise e, w1)
      | Some (n, e) => (Raise e, printed (substring 0 n (text ++ nl)) w1)
      end
  end.
Proof.
  intros O A. unfold main, bind, try_except, lift, ret. rewrite A.
  fold (payload_of a ms).
  destruct (json_dumps (payload_of a ms)) as [text | e]; [ | reflexivity ].
  rewrite O. simpl. unfold write_stdout.
  destruct (console (text ++ nl)) as [[[|n] e] | ]; reflexivity.
Qed.

Lemma aggregate_markets_returns (sources : list string) (limit : Z)
  (min_liquidity : option float) (top_n : option Z) (w : world) :
  exists ms w1,
    aggregate_markets sources limit min_liquidity top_n w = (Ok ms, w1)
    /\ files w1 = files w /\ stdout w1 = stdout w.
Proof.
  destruct (collect_returns limit sources [] w) as (all & w1 & E).
  pose proof (collect_files limit sources [] w) as [F O]. rewrite E in F, O.
  exists (truncate top_n (rank (filter_liquidity min_liquidity all))), w1.
  split; [ now apply aggregate_markets_run | auto ].
Qed.

End Main.

(** X10: [main] never returns the exit status 1.  The aggregator catches
    every exception of a source itself, so the handler around it is never
    entered and the error channel holds what the aggregator left there.
    [main] then returns 0, or it is left by an exception, which is that of
    the serializer, or that of the write to the standard output when the
    output is ["-"], or else that of the making of the directory, of the
    opening or of the writing of the file. *)
Theorem main_returns_zero_or_raises :
  forall (H : Host) (a : args) (w : world),
    exists (ms : list Market) (w1 : world),
      aggregate_markets (arg_sources a) (arg_limit a) (arg_min_liquidity a)
        (Some (arg_top_n a)) w = (Ok ms, w1)
      /\ stderr (snd (main a w)) = stderr w1
      /\ (fst (main a w) = Ok 0
          \/ exists e : exn,
               fst (main a w) = Raise e
               /\ (json_dumps (payload_of a ms) = Raise e
                   \/ exists text : string,
                        json_dumps (payload_of a ms) = Ok text
                        /\ if String.eqb (arg_out a) "-"
                           then exists n, console (text ++ nl) = Some (n, e)
                           else disk (arg_out a) = MkdirFails e
                                \/ disk (arg_out a) = OpenFails e
                                \/ exists n, disk (arg_out a) = WriteFails n e)).
Proof.
  intros H a w.
  destruct (aggregate_markets_returns (arg_sources a) (arg_limit a)
              (arg_min_liquidity a) (Some (arg_top_n a)) w) as (ms & w1 & A & _ & _).
  exists ms, w1. split; [ exact A | ].
  destruct (String.eqb_spec (arg_out a) "-") as [O | O].
  - rewrite (main_to_stdout a w w1 ms O A).
    destruct (json_dumps (payload_of a ms)) as [text | e]; simpl.
    + destruct (console (text ++ nl)) as [[[|n] e] | ] eqn:C; simpl;
        (split; [ reflexivity | ]); eauto 8.
    + split; [ reflexivity | ]. eauto.
  - rewrite (main_to_file a w w1 ms O A).
    destruct (json_dumps (payload_of a ms)) as [text | e]; simpl.
    + destruct (disk (arg_out a)) eqn:D; simpl;
        (split; [ reflexivity | ]); eauto 10.
    + split; [ reflexivity | ]. eauto.
Qed.

(** X11: with ["-"] for the output, [main] writes no file.  When the
    snapshot is serialized and the write to the standard output goes
    through, the text followed by one newline is written there in one piece
    and [main] returns 0.  When serialization fails, [main] raises and the
    standard output is left as it was.  When the write to the standard
    output fails, [main] raises its exception, and the standard output
    holds the characters that got out before: nothing new for a text that
    the stream cannot encode. *)
Theorem main_prints_snapshot :
  forall (H : Host) (a : args) (w : world),
    arg_out a = "-" ->
    exists (ms : list Market) (w1 : world),
      aggregate_markets (arg_sources a) (arg_limit a) (arg_min_liquidity a)
        (Some (arg_top_n a)) w = (Ok ms, w1)
      /\ files (snd (main a w)) = files w
      /\ match json_dumps (payload_of a ms) with
         | Raise e =>
             fst (main a w) = Raise e /\ stdout (snd (main a w)) = stdout w
         | Ok text =>
             match console (text ++ nl) with
             | None =>
                 fst (main a w) = Ok 0
                 /\ stdout (snd (main a w)) = (stdout w ++ [(text ++ nl)%string])%list
             | Some (n, e) =>
                 fst (main a w) = Raise e
                 /\ stdout (snd (main a w))
                    = match n with
                      | O => stdout w
                      | _ => (stdout w ++ [substring 0 n (text ++ nl)])%list
                      end
             end
         end.
Proof.
  intros H a w O.
  destruct (aggregate_markets_returns (arg_sources a) (arg_limit a)
              (arg_min_liquidity a) (Some (arg_top_n a)) w) as (ms & w1 & A & F & S).
  exists ms, w1. rewrite (main_to_stdout a w w1 ms O A).
  destruct (json_dumps (payload_of a ms)) as [text | e]; simpl; rewrite ?S; auto.
  destruct (console (text ++ nl)) as [[[|n] e] | ]; simpl; rewrite ?S; auto.
Qed.

Lemma main_prints_snapshot_witness :
  exists (ms : list Market) (w1 : world) (text : string),
    @aggregate_markets ranking_host ["manifold"] 200 None (Some 100) empty_world
    = (Ok ms, w1)
    /\ @json_dumps ranking_host
         (@payload_of ranking_host (Args ["manifold"] 200 None 100 "-") ms) = Ok text
    /\ @console ranking_host (text ++ nl) = None
    /\ fst (@main ranking_host (Args ["manifold"] 200 None 100 "-") empty_world) = Ok 0
    /\ stdout (snd (@main ranking_host (Args ["manifold"] 200 None 100 "-") empty_world))
       = [(text ++ nl)%string].
Proof.
  destruct (main_prints_snapshot ranking_host (Args ["manifold"] 200 None 100 "-")
              empty_world eq_refl) as (ms & w1 & A & _ & M).
  exists ms, w1, "{}".
  split; [ exact A | split; [ reflexivity | split; [ reflexivity | exact M ] ] ].
Defined.

(** On a console that cannot encode the snapshot, [main] raises and prints
    nothing. *)
Example main_unencodable_snapshot :
  @main ascii_console_host (Args ["manifold"] 200 None 100 "-") empty_world
  = (Raise unencodable,
     World [] [] ["https://api.manifold.markets/v0/markets?limit=200"] []).
Proof. vm_compute. reflexivity. Qed.

(** ** The adapters, again *)

Lemma rmap_Forall2 {A B} (f : A -> result B) (l : list A) :
  forall bs, rmap f l = Ok bs -> Forall2 (fun a b => f a = Ok b) l bs.
Proof.
  induction l as [|a l IH]; intros bs E.
  - injection E as <-. constructor.
  - apply rmap_cons_ok in E. destruct E as (b & bs' & Ea & E & ->).
    constructor; auto.
Qed.

Section Readings.
Context {H : Host}.

Lemma optional_float_none (v : json) (o : option float) :
  optional_float v = Ok o -> (o = None <-> v = JNull).
Proof.
  destruct v; simpl; unfold rbind; intros E;
    repeat match type of E with
      | match ?x with Ok _ => _ | Raise _ => _ end = _ =>
          destruct x; [ | discriminate ]
      end;
    try discriminate;
    injection E as <-; split; intros X; first [ reflexivity | discriminate X ].
Qed.

Lemma manifold_market_reading (r : json) (m : Market) :
  manifold_market r = Ok m -> manifold_reading r m.
Proof.
  unfold manifold_market. destruct r as [ | | | | | | d]; try discriminate.
  simpl. unfold rbind.
  destruct (lower _) as [o | ]; [ | discriminate ].
  destruct (optional_float (get d "volume24Hours")) as [v | ] eqn:Ev; [ | discriminate ].
  destruct (optional_float (get d "elasticity")) as [l | ] eqn:El; [ | discriminate ].
  destruct (_to_iso (get d "createdTime")) as [c | ] eqn:Ec; [ | discriminate ].
  destruct (_to_iso (get d "closeTime")) as [c' | ] eqn:Ec'; [ | discriminate ].
  intros E. injection E as <-. exists d. simpl.
  repeat split; auto;
    try (apply (optional_float_none _ _ Ev));
    try (apply (optional_float_none _ _ El));
    try (apply (to_iso_utc_text _ _ Ec));
    try (apply (to_iso_utc_text _ _ Ec')).
Qed.

End Readings.

(** X12: when the Manifold adapter returns, it returns one [Market] for each
    record of the response, in the order of the records.  Each has the
    source [manifold], the record's identifier and question, the same value
    for [implied_odds] and [probability], a probability only when the type
    marker is [BINARY], a volume and a liquidity that are [None] exactly when
    [volume24Hours] and [elasticity] are null or missing (never a zero put
    in their place), and timestamps that are [None] or the text [strftime]
    gives for an instant of the years 1 to 9999, which has the canonical
    pattern when the instant is of the year 1000 or a later one. *)
Theorem fetch_manifold_reads_every_record :
  forall (H : Host) (limit : Z) (w w' : world) (ms : list Market),
    fetch_manifold limit w = (Ok ms, w') ->
    exists (data : json) (records : list json),
      urlopen_json (List.length (requests w)) (manifold_url limit) = Ok data
      /\ py_iter data = Ok records
      /\ w' = requested (manifold_url limit) w
      /\ Forall2 manifold_reading records ms
      /\ List.length ms = List.length records.
Proof.
  intros H limit w w' ms. unfold fetch_manifold, bind, urlopen, lift.
  destruct (urlopen_json _ _) as [data | e] eqn:D; [ | discriminate ].
  unfold rbind. destruct (py_iter data) as [records | e] eqn:I; [ | discriminate ].
  intros E. injection E as E <-.
  exists data, records. repeat split; auto.
  - eapply Forall2_impl; [ | apply rmap_Forall2; exact E ].
    intros r m. apply manifold_market_reading.
  - now apply rmap_length in E.
Qed.

Lemma fetch_manifold_reads_every_record_witness :
  exists (ms : list Market) (w' : world) (records : list json),
    @fetch_manifold sparse_batches 200 empty_world = (Ok ms, w')
    /\ records = sparse_records
    /\ Forall2 manifold_reading records ms
    /\ List.length ms = 3%nat.
Proof.
  destruct (@fetch_manifold sparse_batches 200 empty_world) as [[ms | e] w'] eqn:E;
    [ | vm_compute in E; discriminate ].
  destruct (fetch_manifold_reads_every_record sparse_batches 200 empty_world w' ms E)
    as (data & records & D & I & _ & F & L).
  vm_compute in D. injection D as <-. vm_compute in I. injection I as <-.
  exists ms, w', sparse_records. repeat split; auto.
Defined.

Section EventReadings.
Context {H : Host}.

(** What the inner loop ends on is what it held or a market it could read
    the volume of. *)
Lemma choose_best_member (ms : list json) :
  forall best_market best_volume x,
    choose_best ms best_market best_volume = Ok x ->
    x = best_market \/ (In x ms /\ exists v, market_volume x = Ok v).
Proof.
  induction ms as [|m ms IH]; simpl; intros best_market best_volume x E.
  - injection E as <-. auto.
  - unfold rbind in E. destruct (market_volume m) as [v | ] eqn:V; [ | discriminate ].
    destruct (PrimFloat.ltb best_volume v).
    + destruct (IH _ _ _ E) as [-> | [I W]]; eauto.
    + destruct (IH _ _ _ E) as [-> | [I W]]; eauto.
Qed.

Lemma chosen_market_reading (d b : list (string * json)) (q : json)
  (base_url : string) (m : Market) :
  chosen_market d q base_url (JObj b) = Ok m ->
  source m = "polymarket"
  /\ id m = JStr (py_str (get b "id"))
  /\ question m = q
  /\ url m = base_url
  /\ (outcome_type m = "binary" \/ outcome_type m = "multi")
  /\ implied_odds m = probability m
  /\ (probability m = JNull \/ exists f, probability m = JFloat f)
  /\ (volume_24h m = None <-> get b "volume" = JNull)
  /\ (liquidity m = None <-> get b "liquidity" = JNull)
  /\ none_or_utc_text (created_at m)
  /\ none_or_utc_text (close_time m).
Proof.
  unfold chosen_market. simpl. unfold rbind at 1.
  destruct (if truthy (py_or (get b "prices") (JArr [])) then _ else _)
    as [p | ] eqn:P; [ | discriminate ].
  unfold rbind.
  destruct (py_len _) as [n | ]; [ | discriminate ].
  destruct (optional_float (get b "volume")) as [v | ] eqn:Ev; [ | discriminate ].
  destruct (optional_float (get b "liquidity")) as [l | ] eqn:El; [ | discriminate ].
  destruct (_to_iso (py_or (get d "createdAt") _)) as [c | ] eqn:Ec; [ | discriminate ].
  destruct (_to_iso (py_or (get d "endDate") _)) as [c' | ] eqn:Ec'; [ | discriminate ].
  intros E. injection E as <-. simpl.
  repeat split; auto;
    try (apply (optional_float_none _ _ Ev));
    try (apply (optional_float_none _ _ El));
    try (apply (to_iso_utc_text _ _ Ec));
    try (apply (to_iso_utc_text _ _ Ec')).
  - destruct (n =? 2); auto.
  - destruct (truthy _).
    + unfold rbind in P. destruct (first_item _); [ | discriminate ].
      destruct (py_float _); [ | discriminate ]. injection P as <-. eauto.
    + injection P as <-. auto.
Qed.

Lemma polymarket_event_reading (e : json) (m : Market) :
  polymarket_event e = Ok (Some m) -> polymarket_reading e m.
Proof.
  unfold polymarket_event. destruct e as [ | | | | | | d]; try discriminate.
  simpl. unfold rbind at 1.
  destruct (str_concat _ _) as [base_url | ] eqn:U; [ | discriminate ].
  unfold rbind at 1.
  destruct (py_iter _) as [ms | ] eqn:I; [ | discriminate ].
  unfold rbind at 1.
  destruct (choose_best ms JNull (-1)%float) as [best | ] eqn:C; [ | discriminate ].
  destruct (truthy best) eqn:T; simpl; [ | discriminate ].
  unfold rbind. destruct (chosen_market _ _ _ best) as [m' | ] eqn:M; [ | discriminate ].
  intros E. injection E as ->.
  destruct (choose_best_member _ _ _ _ C) as [-> | [In_ms (v & V)]]; [ discriminate | ].
  destruct best as [ | | | | | | b]; try discriminate.
  assert (exists slug, py_or (get d "slug") (py_or (get d "id") (JStr "")) = JStr slug
                       /\ base_url = "https://polymarket.com/event/" ++ slug)
    as (slug & S & ->).
  { destruct (py_or (get d "slug") _); try discriminate.
    injection U as <-. eauto. }
  destruct (chosen_market_reading _ _ _ _ _ M)
    as (R1 & R2 & R3 & R4 & R5 & R6 & R7 & R8 & R9 & R10 & R11).
  exists d, b, slug, ms. unfold event_slug, event_markets, event_question.
  repeat split; auto.
  - intros ->. discriminate.
  - apply R8.
  - apply R8.
  - apply R9.
  - apply R9.
Qed.

End EventReadings.

Lemma appended_length {A} (l : list (option A)) :
  (List.length (appended l) <= List.length l)%nat.
Proof.
  induction l as [|[a | ] l IH]; simpl; lia.
Qed.

Lemma appended_In {A} (l : list (option A)) (a : A) :
  In a (appended l) -> In (Some a) l.
Proof.
  induction l as [|[b | ] l IH]; simpl; auto.
  intros [-> | I]; auto.
Qed.

Lemma Forall2_member_right {A B} (R : A -> B -> Prop) (l : list A) (l' : list B)
  (b : B) :
  Forall2 R l l' -> In b l' -> exists a, In a l /\ R a b.
Proof.
  induction 1 as [|a b' l l' Rab F IH]; simpl; [ tauto | ].
  intros [-> | I].
  - exists a. auto.
  - destruct (IH I) as (a' & Ia & Ra). exists a'. auto.
Qed.

(** X13: when the Polymarket adapter returns, it returns at most one
    [Market] for each event of the response, in the order of the events.
    Each comes from a market of its event that is not an empty object and
    has the source [polymarket], that market's identifier as text, the
    event's question, the event page of the slug as URL, the outcome type
    [binary] or [multi], the same value for [implied_odds] and
    [probability], which is [None] or a float, a volume and a liquidity that
    are [None] exactly when the market's are null or missing, and
    timestamps that are [None] or the text [strftime] gives for an instant
    of the years 1 to 9999, which has the canonical pattern when the instant
    is of the year 1000 or a later one. *)
Theorem fetch_polymarket_reads_events :
  forall (H : Host) (limit : Z) (w w' : world) (ms : list Market),
    fetch_polymarket limit w = (Ok ms, w') ->
    exists (data events : json) (es : list json) (outs : list (option Market)),
      urlopen_json (List.length (requests w)) (polymarket_url limit) = Ok data
      /\ events_of data = Ok events
      /\ py_iter events = Ok es
      /\ w' = requested (polymarket_url limit) w
      /\ Forall2 (fun e o => polymarket_event e = Ok o) es outs
      /\ ms = appended outs
      /\ (List.length ms <= List.length es)%nat
      /\ Forall (fun m => exists e, In e es /\ polymarket_reading e m) ms.
Proof.
  intros H limit w w' ms. unfold fetch_polymarket, bind, urlopen, lift.
  destruct (urlopen_json _ _) as [data | e] eqn:D; [ | discriminate ].
  unfold rbind.
  destruct (events_of data) as [events | e] eqn:Ev; [ | discriminate ].
  destruct (py_iter events) as [es | e] eqn:I; [ | discriminate ].
  destruct (rmap polymarket_event es) as [outs | e] eqn:R; [ | discriminate ].
  intros E. injection E as <- <-.
  pose proof (rmap_Forall2 _ _ _ R) as F.
  exists data, events, es, outs. repeat split; auto.
  - rewrite <- (rmap_length _ _ _ R). apply appended_length.
  - apply Forall_forall. intros m In_m. apply appended_In in In_m.
    destruct (Forall2_member_right _ _ _ _ F In_m) as (e & Ie & Ee).
    exists e. split; [ exact Ie | ]. now apply polymarket_event_reading.
Qed.

Lemma fetch_polymarket_reads_events_witness :
  exists (ms : list Market) (w' : world),
    @fetch_polymarket ranking_host 200 empty_world = (Ok ms, w')
    /\ (List.length ms <= 2)%nat
    /\ Forall (fun m => exists e,
                   In e [polymarket_record "c" [polymarket_market "c1" (JInt 30) JNull];
                         polymarket_record "d" [polymarket_market "d1" (JInt 5) JNull]]
                   /\ @polymarket_reading ranking_host e m) ms.
Proof.
  destruct (@fetch_polymarket ranking_host 200 empty_world) as [[ms | e] w'] eqn:E;
    [ | vm_compute in E; discriminate ].
  destruct (fetch_polymarket_reads_events ranking_host 200 empty_world w' ms E)
    as (data & events & es & outs & D & Ev & I & _ & _ & _ & L & F).
  vm_compute in D. injection D as <-.
  vm_compute in Ev. injection Ev as <-.
  vm_compute in I. injection I as <-.
  exists ms, w'. repeat split; auto.
Defined.

(** X14: the Polymarket adapter takes the events from a response that is a
    bare list and from one that is an object holding the list under
    [events], with the same outcome; an object whose [events] is missing,
    null or empty yields no market and no error. *)
Theorem fetch_polymarket_accepts_both_shapes :
  forall (H : Host) (limit : Z) (w : world) (data : json),
    urlopen_json (List.length (requests w)) (polymarket_url limit) = Ok data ->
    (forall es : list json,
        data = JArr es \/ (exists d, data = JObj d /\ get d "events" = JArr es) ->
        fetch_polymarket limit w
        = (rbind (rmap polymarket_event es) (fun outs => Ok (appended outs)),
           requested (polymarket_url limit) w))
    /\ (forall d : list (string * json),
          data = JObj d -> truthy (get d "events") = false ->
          fetch_polymarket limit w = (Ok [], requested (polymarket_url limit) w)).
Proof.
  intros H limit w data D.
  unfold fetch_polymarket, bind, urlopen, lift, requested. rewrite D. split.
  - intros es [-> | (d & -> & E)]; simpl.
    + reflexivity.
    + rewrite E. unfold py_or. destruct es; reflexivity.
  - intros d -> T. simpl. unfold py_or. rewrite T. reflexivity.
Qed.

Lemma fetch_polymarket_accepts_both_shapes_witness :
  exists outs : list (option Market),
    @rmap _ _ (@polymarket_event wrapped_events_host) wrapped_events = Ok outs
    /\ @fetch_polymarket wrapped_events_host 200 empty_world
       = (Ok (appended outs), requested (polymarket_url 200) empty_world)
    /\ List.length (appended outs) = 1%nat.
Proof.
  destruct (fetch_polymarket_accepts_both_shapes wrapped_events_host 200 empty_world
              (JObj [("events", JArr wrapped_events)]) eq_refl) as [Both _].
  pose proof (Both wrapped_events
                (or_intror (ex_intro _ [("events", JArr wrapped_events)]
                              (conj eq_refl eq_refl)))) as F.
  destruct (@rmap _ _ (@polymarket_event wrapped_events_host) wrapped_events)
    as [outs | e] eqn:R; [ | vm_compute in R; discriminate ].
  exists outs. split; [ reflexivity | split; [ exact F | ] ].
  vm_compute in R. injection R as <-. reflexivity.
Defined.

(** ** The timestamp normalizer, again *)

Lemma replace_Z_again (s : string) : replace_Z (replace_Z s) = replace_Z s.
Proof.
  induction s as [|c s IH]; simpl; auto.
  destruct (Ascii.eqb c "Z") eqn:E; simpl.
  - now rewrite IH.
  - now rewrite E, IH.
Qed.

Lemma replace_Z_empty (s : string) :
  String.eqb (replace_Z s) "" = String.eqb s "".
Proof.
  destruct s as [|c s]; simpl; auto.
  destruct (Ascii.eqb c "Z"); reflexivity.
Qed.

(** X15: a timestamp written with [Z] and the same timestamp written with
    [+00:00] in its place give the same result, on every host: [Z] is read
    as the UTC offset. *)
Theorem to_iso_reads_Z_as_utc_offset :
  forall (H : Host) (s : string),
    _to_iso (JStr s) = _to_iso (JStr (replace_Z s)).
Proof.
  intros H s. unfold _to_iso, is_none_or_empty.
  rewrite replace_Z_empty, replace_Z_again. reflexivity.
Qed.

(** X16: the result for a number, and for a string that [fromisoformat]
    reads as a value with a UTC offset, does not depend on the time zone of
    the machine: two hosts that read the string alike give the same
    result. *)
Theorem to_iso_independent_of_local_zone :
  forall (H1 H2 : Host) (v : json),
    is_number v = true
    \/ (exists s dt o,
           v = JStr s
           /\ @fromisoformat H1 (replace_Z s) = Ok dt
           /\ @fromisoformat H2 (replace_Z s) = Ok dt
           /\ dt_offset dt = Some o) ->
    @_to_iso H1 v = @_to_iso H2 v.
Proof.
  intros H1 H2 v [N | (s & dt & o & -> & F1 & F2 & O)].
  - destruct v; try discriminate; reflexivity.
  - unfold _to_iso. destruct (is_none_or_empty (JStr s)); [ reflexivity | ].
    rewrite F1, F2. unfold rtry, rbind, astimezone_utc. rewrite O. reflexivity.
Qed.

Lemma to_iso_independent_of_local_zone_witness :
  (exists s dt o,
      JStr "2024-05-01T12:00:00+02:00" = JStr s
      /\ @fromisoformat ranking_host (replace_Z s) = Ok dt
      /\ @fromisoformat timeout_host (replace_Z s) = Ok dt
      /\ dt_offset dt = Some o)
  /\ @_to_iso ranking_host (JStr "2024-05-01T12:00:00+02:00")
     = @_to_iso timeout_host (JStr "2024-05-01T12:00:00+02:00").
Proof.
  assert (exists s dt o,
             JStr "2024-05-01T12:00:00+02:00" = JStr s
             /\ @fromisoformat ranking_host (replace_Z s) = Ok dt
             /\ @fromisoformat timeout_host (replace_Z s) = Ok dt
             /\ dt_offset dt = Some o) as P.
  { eexists _, _, _. repeat split; reflexivity. }
  split; [ exact P | ].
  apply (to_iso_independent_of_local_zone ranking_host timeout_host
           (JStr "2024-05-01T12:00:00+02:00") (or_intror P)).
Defined.

(** X17: when the clock shows a time of the years 1000 to 9999, [now_utc]
    returns a string in the canonical pattern. *)
Theorem now_utc_is_canonical :
  forall (H : Host),
    in_datetime_range utcnow = true ->
    YEAR_1000 <= utcnow ->
    canonical now_utc = true.
Proof.
  intros H R Y.
  apply (strftime_canonical (Datetime utcnow 0 (Some 0))); assumption.
Qed.

Lemma now_utc_is_canonical_witness :
  in_datetime_range (@utcnow ranking_host) = true
  /\ YEAR_1000 <= @utcnow ranking_host
  /\ canonical (@now_utc ranking_host) = true
  /\ @now_utc ranking_host = "2023-11-14T22:13:20Z".
Proof.
  split; [ reflexivity | ].
  split; [ vm_compute; discriminate | ].
  split; [ | reflexivity ].
  apply (now_utc_is_canonical ranking_host eq_refl). vm_compute. discriminate.
Defined.

(** ** Ranking, timestamps, records and events that are in order *)

(** X18: without a limit the aggregator returns the ranking of the filtered
    markets.  The ranking holds the same markets as the list it is given;
    when no volume is NaN it is the stable sort by 24h volume, highest
    first, [None] counting as 0.0: markets of equal volume keep the order
    they were collected in, and no market stands before one of higher
    volume.  With the volumes 10, 30 from the first source and 30, 5 from
    the second, the first source's 30 comes first, then the second
    source's 30, then 10, then 5. *)
Theorem rank_is_stable_sort_without_nan :
  (forall (H : Host) (sources : list string) (limit : Z)
          (min_liquidity : option float) (w : world),
      exists (all : list Market) (w' : world),
        collect limit [] sources w = (Ok all, w')
        /\ aggregate_markets sources limit min_liquidity None w
           = (Ok (rank (filter_liquidity min_liquidity all)), w'))
  /\ (forall (H : Host) (l : list Market), Permutation (rank l) l)
  /\ (forall (H : Host) (l : list Market),
        Forall no_nan_volume l ->
        (forall k, filter (same_key volume_key PrimFloat.eqb k) (rank l)
                   = filter (same_key volume_key PrimFloat.eqb k) l)
        /\ by_volume_descending (rank l))
  /\ (forall m, volume_24h m = None -> volume_key m = 0%float)
  /\ (exists (result : list Market) (w' : world),
        @aggregate_markets ranking_host ["manifold"; "polymarket"] 200 None None
          empty_world = (Ok result, w')
        /\ map (fun m => (source m, volume_24h m)) result
           = [("manifold", Some 30%float); ("polymarket", Some 30%float);
              ("manifold", Some 10%float); ("polymarket", Some 5%float)]).
Proof.
  split; [ | split; [ | split; [ | split ] ] ].
  - intros H sources limit min_liquidity w.
    destruct (collect_returns limit sources [] w) as (all & w' & E).
    exists all, w'. split; auto.
    rewrite (aggregate_markets_run _ _ _ _ _ _ _ E). reflexivity.
  - intros H l. apply rank_perm.
  - intros H l N. split.
    + intros k. now apply rank_stable.
    + now apply rank_descending.
  - intros m E. unfold volume_key. now rewrite E.
  - eexists _, _. vm_compute. split; reflexivity.
Qed.

Lemma rank_is_stable_sort_without_nan_witness :
  Forall no_nan_volume tied_markets
  /\ map id (@rank ranking_host tied_markets) = [JStr "a"; JStr "c"; JStr "b"]
  /\ by_volume_descending (@rank ranking_host tied_markets).
Proof.
  assert (Forall no_nan_volume tied_markets) as N by (repeat constructor).
  split; [ exact N | split; [ reflexivity | ] ].
  exact (proj2 (proj1 (proj2 (proj2 rank_is_stable_sort_without_nan))
                  ranking_host tied_markets N)).
Defined.

(** X19: the normalizer is total: whatever it is given, it returns, without
    raising, [None] or the text [strftime] gives for an instant of the
    years 1 to 9999, and that text has the canonical pattern when the
    instant is of the year 1000 or a later one.  Null, the empty string, a
    string that [fromisoformat] rejects or whose UTC value is out of range,
    and a number that cannot be converted (NaN, an infinity, an overflow, a
    year outside 1..9999) give [None], and so does a list. *)
Theorem to_iso_is_total :
  (forall (H : Host) (v : json),
      exists r : option string, _to_iso v = Ok r /\ none_or_utc_text r)
  /\ (forall (H : Host), _to_iso JNull = Ok None /\ _to_iso (JStr "") = Ok None)
  /\ (forall (H : Host) (s : string) (e : exn),
        fromisoformat (replace_Z s) = Raise e -> _to_iso (JStr s) = Ok None)
  /\ (forall (H : Host) (s : string) (dt : datetime) (e : exn),
        fromisoformat (replace_Z s) = Ok dt -> astimezone_utc dt = Raise e ->
        _to_iso (JStr s) = Ok None)
  /\ (forall (H : Host) (v : json) (e : exn),
        is_number v = true -> epoch_millis v = Raise e -> _to_iso v = Ok None)
  /\ (forall (H : Host),
        _to_iso (JFloat nan) = Ok None
        /\ _to_iso (JFloat infinity) = Ok None
        /\ _to_iso (JFloat neg_infinity) = Ok None
        /\ _to_iso (JInt (10 ^ 400)) = Ok None
        /\ _to_iso (JInt 253402300800000) = Ok None
        /\ _to_iso (JInt (-62135596800001)) = Ok None
        /\ _to_iso (JArr []) = Ok None).
Proof.
  split; [ | split; [ | split; [ | split; [ | split ] ] ] ].
  - intros H v. destruct (to_iso_returns v) as (r & E).
    exists r. split; [ exact E | ]. now apply (to_iso_utc_text v).
  - intros H. split; reflexivity.
  - intros H s e E. destruct (String.eqb_spec s "") as [-> | N]; [ reflexivity | ].
    rewrite (to_iso_str s N), E. reflexivity.
  - intros H s dt e E A. destruct (String.eqb_spec s "") as [-> | N]; [ reflexivity | ].
    rewrite (to_iso_str s N), E. simpl. now rewrite A.
  - intros H v e N E. rewrite (to_iso_number v N), E. reflexivity.
  - intros H. repeat split; vm_compute; reflexivity.
Qed.

(** X20: a number is read as milliseconds since the Unix epoch.  When
    [float], the division by 1000.0 and [fromtimestamp] give an instant
    (the number is no NaN or infinity and the year is one of 1..9999),
    [_to_iso] returns the text of the fields of that instant in UTC, which
    has the canonical pattern when the instant is of the year 1000 or a
    later one; when they raise, [_to_iso] returns [None]. *)
Theorem to_iso_reads_epoch_millis :
  (forall (H : Host) (v : json),
      is_number v = true ->
      match epoch_millis v with
      | Ok dt =>
          dt_offset dt = Some 0
          /\ in_datetime_range (dt_wall dt) = true
          /\ _to_iso v = Ok (Some (strftime_ISO8601 dt))
          /\ (YEAR_1000 <= dt_wall dt -> canonical (strftime_ISO8601 dt) = true)
      | Raise _ => _to_iso v = Ok None
      end)
  /\ (forall (H : Host),
        _to_iso (JInt 0) = Ok (Some "1970-01-01T00:00:00Z")
        /\ _to_iso (JInt 999) = Ok (Some "1970-01-01T00:00:00Z")
        /\ _to_iso (JInt 1000) = Ok (Some "1970-01-01T00:00:01Z")
        /\ _to_iso (JInt (-1)) = Ok (Some "1969-12-31T23:59:59Z")
        /\ _to_iso (JInt 1700000000000) = Ok (Some "2023-11-14T22:13:20Z")
        /\ _to_iso (JFloat 1700000000000.5%float) = Ok (Some "2023-11-14T22:13:20Z")
        /\ _to_iso (JInt 253402300799999) = Ok (Some "9999-12-31T23:59:59Z")
        /\ _to_iso (JInt (-30610224000000)) = Ok (Some "1000-01-01T00:00:00Z")
        /\ _to_iso (JInt 253402300800000) = Ok None
        /\ _to_iso (JInt (10 ^ 400)) = Ok None
        /\ _to_iso (JFloat nan) = Ok None
        /\ _to_iso (JFloat infinity) = Ok None).
Proof.
  split.
  - intros H v N. rewrite (to_iso_number v N).
    destruct (epoch_millis v) as [dt | e] eqn:E; auto.
    apply epoch_millis_ok in E. destruct E as [R O].
    repeat split; auto. now apply strftime_canonical.
  - intros H. repeat split; vm_compute; reflexivity.
Qed.

Lemma to_iso_reads_epoch_millis_witness :
  is_number (JInt 1700000000000) = true
  /\ match @epoch_millis ranking_host (JInt 1700000000000) with
     | Ok dt =>
         dt_offset dt = Some 0
         /\ in_datetime_range (dt_wall dt) = true
         /\ @_to_iso ranking_host (JInt 1700000000000)
            = Ok (Some (strftime_ISO8601 dt))
         /\ (YEAR_1000 <= dt_wall dt -> canonical (strftime_ISO8601 dt) = true)
     | Raise _ => @_to_iso ranking_host (JInt 1700000000000) = Ok None
     end.
Proof.
  split; [ reflexivity | ].
  apply (proj1 to_iso_reads_epoch_millis ranking_host (JInt 1700000000000)).
  reflexivity.
Defined.

(** X21: when the response is a list and the fields that are present in its
    records have the types the adapter expects (text for the type marker,
    the slug and the identifier; [None], a [bool], a [float] or an [int]
    that [float] can hold for the volumes and the liquidity; a list that is
    empty or starts with such a number for the prices), the call does not
    fail and no record is left out for the fields it lacks: every Manifold
    record becomes a [Market] and every Polymarket event is converted, to
    one [Market] or, when no market of it is chosen, to none.  A record
    without any field is such a record. *)
Theorem records_lacking_fields_are_converted :
  (forall (H : Host) (limit : Z) (w : world) (records : list json),
      urlopen_json (List.length (requests w)) (manifold_url limit)
      = Ok (JArr records) ->
      forallb manifold_well_typed records = true ->
      exists (ms : list Market) (w' : world),
        fetch_manifold limit w = (Ok ms, w')
        /\ Forall2 (fun r m => manifold_market r = Ok m) records ms)
  /\ (forall (H : Host) (limit : Z) (w : world) (events : list json),
        urlopen_json (List.length (requests w)) (polymarket_url limit)
        = Ok (JArr events) ->
        forallb event_well_typed events = true ->
        exists (outs : list (option Market)) (w' : world),
          fetch_polymarket limit w = (Ok (appended outs), w')
          /\ Forall2 (fun e o => polymarket_event e = Ok o) events outs)
  /\ manifold_well_typed (JObj []) = true
  /\ event_well_typed (JObj []) = true.
Proof.
  split; [ | split; [ | split; reflexivity ] ].
  - intros H limit w records N W.
    destruct (rmap_converts manifold_market manifold_well_typed records
                manifold_market_converts W) as (ms & E & F).
    exists ms. eexists. split; [ | exact F ].
    unfold fetch_manifold, bind, urlopen, lift. rewrite N. simpl. rewrite E.
    reflexivity.
  - intros H limit w events N W.
    destruct (rmap_converts polymarket_event event_well_typed events
                polymarket_event_converts W) as (outs & E & F).
    exists outs. eexists. split; [ | exact F ].
    unfold fetch_polymarket, bind, urlopen, lift. rewrite N. simpl. rewrite E.
    reflexivity.
Qed.

(** Three records, the first without any field and the second with an
    identifier only, give three markets; three events, the first without
    markets, give two. *)
Lemma records_lacking_fields_are_converted_witness :
  (exists (ms : list Market) (w' : world),
      @fetch_manifold sparse_batches 200 empty_world = (Ok ms, w')
      /\ Forall2 (fun r m => @manifold_market sparse_batches r = Ok m)
           sparse_records ms
      /\ map (fun m => (id m, volume_24h m)) ms
         = [(JStr "", None); (JStr "only-an-id", None); (JStr "b", Some 10%float)])
  /\ (exists (outs : list (option Market)) (w' : world),
         @fetch_polymarket sparse_batches 200 empty_world = (Ok (appended outs), w')
         /\ Forall2 (fun e o => @polymarket_event sparse_batches e = Ok o)
              sparse_events outs
         /\ map (option_map (fun m => (id m, volume_24h m))) outs
            = [None; Some (JStr "only-an-id", None); Some (JStr "d1", Some 5%float)]).
Proof.
  split.
  - destruct (proj1 records_lacking_fields_are_converted sparse_batches 200
                empty_world sparse_records eq_refl eq_refl) as (ms & w' & E & F).
    exists ms, w'. split; [ exact E | split; [ exact F | ] ].
    vm_compute in E. injection E as <- _. reflexivity.
  - destruct (proj1 (proj2 records_lacking_fields_are_converted) sparse_batches
                200 empty_world sparse_events eq_refl eq_refl) as (outs & w' & E & F).
    exists outs, w'. split; [ exact E | split; [ exact F | ] ].
    inversion F as [ | e1 o1 l1 r1 E1 F1 ]; subst.
    inversion F1 as [ | e2 o2 l2 r2 E2 F2 ]; subst.
    inversion F2 as [ | e3 o3 l3 r3 E3 F3 ]; subst.
    inversion F3; subst.
    vm_compute in E1, E2, E3.
    injection E1 as <-. injection E2 as <-. injection E3 as <-. reflexivity.
Defined.

(** X22: for an event whose slug or identifier gives the URL [base_url],
    whose markets can be iterated and all have a volume that converts (a
    missing, null or zero volume is 0.0): the inner loop ends on the first
    market of the highest volume if that volume is above -1.0, and the
    event then gives what the conversion of that market gives, a [Market]
    or its exception, or no [Market] if that market is an empty object;
    when no volume is above -1.0, in particular when the event has no
    markets, the event gives no [Market] and no error. *)
Theorem polymarket_event_takes_first_highest :
  forall (H : Host) (d : list (string * json)) (ms : list json)
         (vols : list float) (base_url : string),
    str_concat "https://polymarket.com/event/" (event_slug d) = Ok base_url ->
    py_iter (event_markets d) = Ok ms ->
    rmap market_volume ms = Ok vols ->
    (forall (i : nat) (m : json) (v : float),
        nth_error ms i = Some m ->
        first_highest vols i v ->
        PrimFloat.ltb (-1)%float v = true ->
        choose_best ms JNull (-1)%float = Ok m
        /\ polymarket_event (JObj d)
           = if truthy m
             then rbind (chosen_market d (event_question d) base_url m)
                    (fun x => Ok (Some x))
             else Ok None)
    /\ ((forall j v', nth_error vols j = Some v' ->
                      PrimFloat.ltb (-1)%float v' = false) ->
        polymarket_event (JObj d) = Ok None)
    /\ (ms = [] -> polymarket_event (JObj d) = Ok None).
Proof.
  intros H d ms vols base_url U I V.
  assert (forall best,
             choose_best ms JNull (-1)%float = Ok best ->
             polymarket_event (JObj d)
             = if negb (truthy best) then Ok None
               else rbind (chosen_market d (event_question d) base_url best)
                      (fun x => Ok (Some x))) as P.
  { intros best C. unfold polymarket_event, event_slug, event_markets in *.
    simpl. rewrite U. simpl. rewrite I. simpl. rewrite C. reflexivity. }
  split; [ | split ].
  - intros i m v N F Above.
    pose proof (choose_best_pick ms vols i m v JNull (-1)%float V N F Above) as C.
    split; [ exact C | ]. rewrite (P m C). destruct (truthy m); reflexivity.
  - intros B. apply (P JNull). apply (choose_best_keep ms vols); auto.
  - intros ->. apply (P JNull). reflexivity.
Qed.

Lemma first_highest_5_40_12 :
  first_highest [5%float; 40%float; 12%float] 1 40%float.
Proof.
  split; [ reflexivity | split ].
  - intros [|[|[|j]]] v' N; simpl in N; try (injection N as <-; reflexivity).
    destruct j; discriminate.
  - intros [|j] v' L N; [ | lia ]. injection N as <-. reflexivity.
Qed.

(** Of the markets of volumes 5, 40 and 12 the event keeps the second: the
    identifier, the price, the volume and the liquidity of the [Market] are
    that market's. *)
Lemma polymarket_event_takes_first_highest_witness :
  exists d : list (string * json),
    three_markets = JObj d
    /\ @polymarket_event ranking_host (JObj d)
       = Ok (Some {| source := "polymarket";
                     id := JStr "m40";
                     question := JStr "Will it snow?";
                     url := "https://polymarket.com/event/e";
                     outcome_type := "binary";
                     probability := JFloat 0.25%float;
                     implied_odds := JFloat 0.25%float;
                     volume_24h := Some 40%float;
                     liquidity := Some 2%float;
                     created_at := None;
                     close_time := Some "2030-01-01T00:00:00Z" |}).
Proof.
  exists (polymarket_fields "e" three_markets_list).
  split; [ reflexivity | ].
  destruct (polymarket_event_takes_first_highest ranking_host
              (polymarket_fields "e" three_markets_list) three_markets_list
              [5%float; 40%float; 12%float] "https://polymarket.com/event/e"
              eq_refl eq_refl eq_refl) as (Pick & _ & _).
  destruct (Pick 1%nat (polymarket_market "m40" (JInt 40) (JInt 2)) 40%float
              eq_refl first_highest_5_40_12 eq_refl) as [_ E].
  rewrite E. vm_compute. reflexivity.
Defined.
